(** * gdsjam: the showcase grid packer and the GDS structure dump

    A shallow embedding of
    - [src/components/code/examples/pic_component_showcase.py]
      (module [Showcase]): the closure [add_component_to_grid], the forced
      row break and the spiral placement of [pic_component_showcase];
    - [tests/gds/read_gds.py] (module [ReadGds]): [inspect_gds] over a
      small model of Python file objects.

    The two modules hold the definitions; [ShowcaseFacts] and
    [ReadGdsFacts] hold what is proved about them.

    Python integers are unbounded, so they are [Z] throughout. *)

From stdpp Require Import base numbers list strings gmap pretty.

#[local] Open Scope Z_scope.

(* ===================================================================== *)
(** * The grid packer of [pic_component_showcase.py] *)
(* ===================================================================== *)

Module Showcase.

(** The local variables of [pic_component_showcase] that the closure
    [add_component_to_grid] captures and never assigns (lines 28-31, 36). *)
Record closure_env : Type := ClosureEnv {
  x_spacing : Z;
  y_spacing : Z;
  x_start : Z;
  y_start : Z;
  max_cols : Z
}.

Section Packer.

(** The drawables handed to the packer are opaque handles produced by the
    component library. *)
Context {Component : Type}.

(** What a reference inserted into the drawing points at: a component, or
    the text component [gf.components.text(text, size, layer)]. *)
Inductive drawable : Type :=
| ComponentOf (component : Component)
| TextOf (text : string) (size : Z) (layer : Z * Z).

(** A reference held by the drawing [c]: its target and its origin. *)
Record reference : Type := Reference {
  ref_of : drawable;
  ref_origin : Z * Z
}.

(** [ref.move((dx, dy))]: a translation of the reference. *)
Definition translate (v : Z * Z) (r : reference) : reference :=
  {| ref_of := ref_of r;
     ref_origin := ((ref_origin r).1 + v.1, (ref_origin r).2 + v.2) |}.

(** [c << d]: appends a new reference at the origin to the drawing and
    returns its handle (its index in the drawing). *)
Definition add_ref (c : list reference) (d : drawable) : list reference * nat :=
  (c ++ [ {| ref_of := d; ref_origin := (0, 0) |} ], length c).

(** [ref.move(v)] through the handle: the drawing sees the move, since the
    handle aliases the reference stored in it. *)
Definition move (c : list reference) (ref : nat) (v : Z * Z) : list reference :=
  alter (translate v) ref c.

(** The state the closure mutates: the drawing [c] and the [nonlocal]
    counters [row] and [col]. *)
Record grid : Type := Grid {
  c : list reference;
  row : Z;
  col : Z
}.

Context (env : closure_env).

(** Lines 38-60. *)
Definition add_component_to_grid (g : grid) (component : Component)
    (label : string) : grid :=
  let '(c1, ref) := add_ref (c g) (ComponentOf component) in
  let x_pos := x_start env + col g * x_spacing env in
  let y_pos := y_start env - row g * y_spacing env in
  let c2 := move c1 ref (x_pos, y_pos) in
  let '(c3, text) := add_ref c2 (TextOf label 10 (1, 0)) in
  let c4 := move c3 text (x_pos - 50, y_pos - 40) in
  let col1 := col g + 1 in
  if bool_decide (col1 >= max_cols env)
  then {| c := c4; row := row g + 1; col := 0 |}
  else {| c := c4; row := row g; col := col1 |}.

(** Lines 228-230: the forced row break before the spiral. *)
Definition force_new_row (g : grid) : grid :=
  if bool_decide (col g ≠ 0)
  then {| c := c g; row := row g + 1; col := 0 |}
  else g.

(** Lines 232-244: the spiral and its label, placed at the cursor without
    advancing it. *)
Definition place_spiral (g : grid) (spiral : Component) : grid :=
  let '(c1, ref_spiral) := add_ref (c g) (ComponentOf spiral) in
  let x_pos := x_start env + col g * x_spacing env in
  let y_pos := y_start env - row g * y_spacing env in
  let c2 := move c1 ref_spiral (x_pos, y_pos) in
  let '(c3, text_spiral) := add_ref c2 (TextOf "Spiral" 10 (1, 0)) in
  let c4 := move c3 text_spiral (x_pos - 50, y_pos - 40) in
  {| c := c4; row := row g; col := col g |}.

(** Lines 25 and 34-35: the empty drawing with the cursor at cell (0,0). *)
Definition fresh : grid := {| c := []; row := 0; col := 0 |}.

(** A run of consecutive calls of [add_component_to_grid], in call order. *)
Definition place_all (g : grid) (items : list (Component * string)) : grid :=
  fold_left (fun g item => add_component_to_grid g item.1 item.2) items g.

(** The operations that touch the cursor. *)
Inductive op : Type :=
| Place (component : Component) (label : string)
| ForceNewRow.

Definition run_op (g : grid) (o : op) : grid :=
  match o with
  | Place component label => add_component_to_grid g component label
  | ForceNewRow => force_new_row g
  end.

Definition run_ops (g : grid) (ops : list op) : grid :=
  fold_left run_op ops g.

(** The cursor invariant of the data model. *)
Definition cursor_ok (g : grid) : Prop := 0 <= col g < max_cols env.

(** The grid cell the cursor is at. *)
Definition cell (g : grid) : Z * Z := (row g, col g).

(** Lexicographic order on grid cells (row first). *)
Definition cell_lt (a b : Z * Z) : Prop :=
  a.1 < b.1 ∨ (a.1 = b.1 ∧ a.2 < b.2).

(** The cells of a row-major grid, numbered from cell (0,0). *)
Definition cell_index (g : grid) : Z := row g * max_cols env + col g.

(** The components referenced by a drawing, in insertion order. *)
Definition components_of (c : list reference) : list Component :=
  omap (fun r => match ref_of r with
                 | ComponentOf component => Some component
                 | TextOf _ _ _ => None
                 end) c.

(** The components a sequence of operations places, in order. *)
Definition components_placed (ops : list op) : list Component :=
  omap (fun o => match o with
                 | Place component _ => Some component
                 | ForceNewRow => None
                 end) ops.

(** The position lines 44-45 (and 234-235) compute from the cursor. *)
Definition item_pos (g : grid) : Z * Z :=
  (x_start env + col g * x_spacing env, y_start env - row g * y_spacing env).

(** The two references one placement leaves in the drawing. *)
Definition placed (g : grid) (component : Component) (label : string)
    : list reference :=
  [ {| ref_of := ComponentOf component; ref_origin := item_pos g |};
    {| ref_of := TextOf label 10 (1, 0);
       ref_origin := ((item_pos g).1 - 50, (item_pos g).2 - 40) |} ].

End Packer.

Arguments drawable : clear implicits.
Arguments reference : clear implicits.
Arguments grid : clear implicits.
Arguments op : clear implicits.

(** The catalogue of [pic_component_showcase], one constructor per local
    variable holding a generated component. *)
Inductive catalogue : Type :=
| detector | heater_metal | modulator_pn | modulator_pin | disk_heater
| awg | ring_single | ring_double | ring_crow
| dbr | dbr_tapered | cavity
| mmi1x2 | mmi2x2 | mmi3x3 | mmi4x4
| coupler_dc | coupler_sym | coupler90 | coupler_adiabatic | coupler_ring
| splitter_tree | splitter_chain
| gc_te | gc_tm | gc_array
| mzi | mzi_ps | edge_coupler | psr
| spiral.

(** Lines 28-31 and 36. *)
Definition showcase_env : closure_env :=
  {| x_spacing := 300; y_spacing := 100; x_start := 0; y_start := 0;
     max_cols := 4 |}.

(** The thirty calls of [add_component_to_grid], lines 68-224, in order. *)
Definition grid_calls : list (catalogue * string) :=
  [ (detector, "Ge Photodetector"); (heater_metal, "Metal Heater");
    (modulator_pn, "PN Modulator"); (modulator_pin, "PIN Modulator");
    (disk_heater, "Disk Heater");
    (awg, "AWG 10x4"); (ring_single, "Ring Single");
    (ring_double, "Ring Double"); (ring_crow, "CROW (3 rings)");
    (dbr, "DBR"); (dbr_tapered, "DBR Tapered"); (cavity, "Cavity");
    (mmi1x2, "MMI 1x2"); (mmi2x2, "MMI 2x2"); (mmi3x3, "MMI 3x3");
    (mmi4x4, "MMI 4x4");
    (coupler_dc, "DC Coupler"); (coupler_sym, "DC Symmetric");
    (coupler90, "Coupler 90deg"); (coupler_adiabatic, "Adiabatic Coupler");
    (coupler_ring, "Ring Coupler");
    (splitter_tree, "Splitter Tree 1x4"); (splitter_chain, "Splitter Chain");
    (gc_te, "GC TE"); (gc_tm, "GC TM"); (gc_array, "GC Array (4)");
    (mzi, "MZI"); (mzi_ps, "MZI Phase Shifter");
    (edge_coupler, "Edge Coupler"); (psr, "PSR") ].

(** The drawing read two references at a time: each item with the label
    inserted right after it. *)
Fixpoint caption_pairs {Component : Type} (refs : list (reference Component))
    : list (reference Component * reference Component) :=
  match refs with
  | item :: caption :: rest => (item, caption) :: caption_pairs rest
  | _ => []
  end.

(** Lines 18-246: the drawing [pic_component_showcase] returns. *)
Definition pic_component_showcase : list (reference catalogue) :=
  let g := place_all showcase_env fresh grid_calls in
  let g := force_new_row g in
  c (place_spiral showcase_env g spiral).

End Showcase.

(* ===================================================================== *)
(** * The structure dump of [tests/gds/read_gds.py] *)
(* ===================================================================== *)

Module ReadGds.

(** ** Python text *)

(** A line feed, which [print] writes after its argument. *)
Definition newline : string := String (Ascii.ascii_of_nat 10) EmptyString.

(** [str] on an [int], as an f-string formats it. *)
Definition str_int (n : Z) : string := pretty n.

(** [str] on a [bool]. *)
Definition str_bool (b : bool) : string := if b then "True" else "False".

(** [str] on a list whose elements have the given [repr]s. *)
Definition str_list (reprs : list string) : string :=
  "[" +:+ String.concat ", " reprs +:+ "]".

(** The text a sequence of [print] calls writes. *)
Definition unlines (lines : list string) : string :=
  foldr (λ line text, line +:+ newline +:+ text) EmptyString lines.

(** ** Files, streams and exceptions *)

Inductive exn : Type :=
| OSError
| ValueError
| LibraryError (msg : string).

Inductive outcome (A : Type) : Type :=
| Ok (a : A)
| Raise (e : exn).
Arguments Ok {A} a.
Arguments Raise {A} e.

(** A file object made by [open(path, 'w')]: its path and whether [close]
    was called on it. *)
Record file_object : Type := FileObject {
  fo_name : string;
  fo_closed : bool
}.

(** What the dump can touch: the text files on disk by path, the paths
    that cannot be opened for writing, the file objects made so far (a
    handle is an index into them), standard output, and how many more
    writes the device accepts before every write fails ([None]: it never
    fails). *)
Record world : Type := World {
  files : gmap string string;
  unwritable : gset string;
  file_objects : list file_object;
  stdout : string;
  stdout_closed : bool;
  write_budget : option nat
}.

(** The value of [output]: [sys.stdout] or a file object, by handle. *)
Inductive stream : Type :=
| sys_stdout
| file_at (handle : nat).

#[export] Instance stream_eq_dec : EqDecision stream.
Proof. solve_decision. Defined.

(** Computations that read and change the world and may raise. *)
Definition M (A : Type) : Type := world → outcome A * world.

#[export] Instance M_ret : MRet M := λ A a w, (Ok a, w).

#[export] Instance M_bind : MBind M := λ A B k m w,
  match m w with
  | (Ok a, w1) => k a w1
  | (Raise e, w1) => (Raise e, w1)
  end.

Definition raise {A : Type} (e : exn) : M A := λ w, (Raise e, w).

(** [try: body finally: final]: [final] runs however [body] ends, and the
    outcome of [body] stands unless [final] raises itself. *)
Definition try_finally {A : Type} (body : M A) (final : M unit) : M A := λ w,
  let '(r, w1) := body w in
  match final w1 with
  | (Ok _, w2) => (r, w2)
  | (Raise e, w2) => (Raise e, w2)
  end.

(** [for x in xs: body]. *)
Fixpoint for_each {A : Type} (xs : list A) (body : A → M unit) : M unit :=
  match xs with
  | [] => mret ()
  | x :: xs => body x;; for_each xs body
  end.

(** Field updates of the world. *)
Definition with_files (fs : gmap string string) (w : world) : world :=
  {| files := fs; unwritable := unwritable w;
     file_objects := file_objects w; stdout := stdout w;
     stdout_closed := stdout_closed w; write_budget := write_budget w |}.

Definition with_file_objects (fos : list file_object) (w : world) : world :=
  {| files := files w; unwritable := unwritable w;
     file_objects := fos; stdout := stdout w;
     stdout_closed := stdout_closed w; write_budget := write_budget w |}.

Definition with_stdout (text : string) (w : world) : world :=
  {| files := files w; unwritable := unwritable w;
     file_objects := file_objects w; stdout := text;
     stdout_closed := stdout_closed w; write_budget := write_budget w |}.

Definition with_stdout_closed (closed : bool) (w : world) : world :=
  {| files := files w; unwritable := unwritable w;
     file_objects := file_objects w; stdout := stdout w;
     stdout_closed := closed; write_budget := write_budget w |}.

(** The device after [n] writes. *)
Definition spend (n : nat) (w : world) : world :=
  {| files := files w; unwritable := unwritable w;
     file_objects := file_objects w; stdout := stdout w;
     stdout_closed := stdout_closed w;
     write_budget := (λ budget, (budget - n)%nat) <$> write_budget w |}.

(** The world right after [open(path, 'w')] succeeded: the file exists and
    is empty, and a new file object, open, stands for it. *)
Definition opened (path : string) (w : world) : world :=
  with_file_objects
    (file_objects w ++ [ {| fo_name := path; fo_closed := false |} ])
    (with_files (<[path := EmptyString]> (files w)) w).

(** [open(path, 'w')]: creates or truncates the file and returns a new
    file object for it; [OSError] when the path cannot be written. *)
Definition open_w (path : string) : M stream := λ w,
  if decide (path ∈ unwritable w) then (Raise OSError, w)
  else (Ok (file_at (length (file_objects w))), opened path w).

(** The world after [text] went to [file]. *)
Definition written (text : string) (file : stream) (w : world) : world :=
  match file with
  | sys_stdout => with_stdout (stdout w +:+ text) w
  | file_at handle =>
      match file_objects w !! handle with
      | Some f =>
          with_files (alter (λ old, old +:+ text) (fo_name f) (files w)) w
      | None => w
      end
  end.

(** Whether [file] is open. *)
Definition is_open (file : stream) (w : world) : bool :=
  match file with
  | sys_stdout => negb (stdout_closed w)
  | file_at handle =>
      match file_objects w !! handle with
      | Some f => negb (fo_closed f)
      | None => false
      end
  end.

(** [print(line, file=file)]: [ValueError] on a closed file, [OSError] when
    the device refuses the write, else the line and a line feed are
    written. *)
Definition print (line : string) (file : stream) : M unit := λ w,
  if negb (is_open file w) then (Raise ValueError, w)
  else if bool_decide (write_budget w = Some 0%nat) then (Raise OSError, w)
  else (Ok (), spend 1 (written (line +:+ newline) file w)).

(** The world after [file.close()]. *)
Definition closed (file : stream) (w : world) : world :=
  match file with
  | sys_stdout => with_stdout_closed true w
  | file_at handle =>
      with_file_objects
        (alter (λ f, {| fo_name := fo_name f; fo_closed := true |})
               handle (file_objects w)) w
  end.

(** [file.close()]. *)
Definition close (file : stream) : M unit := λ w, (Ok (), closed file w).

(** Truth value of [log_file]: [None] and the empty string are false. *)
Definition truthy (log_file : option string) : bool :=
  match log_file with
  | Some path => bool_decide (path ≠ EmptyString)
  | None => false
  end.

Section Dump.

(** ** The loaded drawing

    The values the dump only formats (floats, coordinate pairs, point
    arrays) are opaque; integers it counts or compares are [Z]. An
    attribute the code probes with [hasattr] is optional; an attribute it
    reads unprobed is always there. *)
Context {pyval : Type}.

Record polygon : Type := Polygon {
  polygon_layer : Z;
  polygon_datatype : Z;
  polygon_points : pyval
}.

(** Line 42 probes [layers]: a path has [layers] (read with [datatypes],
    line 44) or else [layer] and [datatype] (line 47). *)
Inductive path_layer_attrs : Type :=
| Layers (layers datatypes : pyval)
| Layer (layer datatype : Z).

(** Lines 49 and 51 probe [spine] (a method; the value is what the call
    returns) and [points]. *)
Record path : Type := Path {
  path_layer_attrs_of : path_layer_attrs;
  path_spine : option pyval;
  path_points : option pyval
}.

Record label : Type := Label {
  label_layer : Z;
  label_texttype : Z;
  label_text : string;
  label_origin : pyval
}.

(** Line 59 probes [cell]; line 60 tests its truth value and reads the
    [name] of a true one. *)
Inductive cell_attr : Type :=
| NoCellAttr
| CellNone
| CellNamed (name : string).

(** Line 65 probes [columns]; a reference that has it has [rows] and
    [spacing] too (lines 66-67 read them unprobed). *)
Record array_attrs : Type := ArrayAttrs {
  columns : Z;
  rows : Z;
  spacing : pyval
}.

Record reference : Type := Reference {
  reference_cell : cell_attr;
  reference_origin : pyval;
  reference_rotation : pyval;
  reference_magnification : pyval;
  reference_x_reflection : bool;
  reference_array : option array_attrs
}.

Record cell : Type := Cell {
  cell_name : string;
  cell_polygons : list polygon;
  cell_paths : list path;
  cell_labels : list label;
  cell_references : list reference
}.

Record library : Type := Library {
  library_name : string;
  library_cells : list cell
}.

(** What the dump takes from Python and from the GDS library: [str] on the
    opaque values, [repr] on a [str], and the loader, which reads the files
    on disk and returns the drawing or raises. *)
Class Externals : Type := {
  str : pyval → string;
  repr : string → string;
  read_gds : gmap string string → string → outcome library
}.

Context {ext : Externals}.

(** ** [inspect_gds], lines 6-73 *)

(** Line 21. *)
Definition load (gds_file : string) : M library := λ w,
  (read_gds (files w) gds_file, w).

(** Lines 37-38. *)
Definition polygon_body (output : stream) (poly : polygon) : M unit :=
  print ("    Polygon - Layer " +:+ str_int (polygon_layer poly) +:+
         ", datatype " +:+ str_int (polygon_datatype poly)) output;;
  print ("      Points: " +:+ str (polygon_points poly)) output.

(** Lines 41-52. *)
Definition path_body (output : stream) (path : path) : M unit :=
  match path_layer_attrs_of path with
  | Layers layers datatypes =>
      print ("    Path - Layers " +:+ str layers +:+
             ", datatypes " +:+ str datatypes) output
  | Layer layer datatype =>
      print ("    Path - Layer " +:+ str_int layer +:+
             ", datatype " +:+ str_int datatype) output
  end;;
  match path_spine path with
  | Some spine => print ("      Spine points: " +:+ str spine) output
  | None =>
      match path_points path with
      | Some points => print ("      Points: " +:+ str points) output
      | None => mret ()
      end
  end.

(** Lines 55-56. *)
Definition label_body (output : stream) (label : label) : M unit :=
  print ("    Label - Layer " +:+ str_int (label_layer label) +:+
         ", texttype " +:+ str_int (label_texttype label)) output;;
  print ("      Text: " +:+ label_text label +:+
         ", Origin: " +:+ str (label_origin label)) output.

(** Lines 59-67. *)
Definition reference_body (output : stream) (ref : reference) : M unit :=
  match reference_cell ref with
  | NoCellAttr => mret ()
  | CellNone => print ("    Reference to cell: " +:+ "Unknown") output
  | CellNamed name => print ("    Reference to cell: " +:+ name) output
  end;;
  print ("      Origin: " +:+ str (reference_origin ref)) output;;
  print ("      Rotation: " +:+ str (reference_rotation ref) +:+
         " degrees") output;;
  print ("      Magnification: " +:+ str (reference_magnification ref)) output;;
  print ("      X-reflection: " +:+
         str_bool (reference_x_reflection ref)) output;;
  match reference_array ref with
  | Some a =>
      if bool_decide (columns a > 1) then
        print ("      Array: " +:+ str_int (columns a) +:+ " columns x " +:+
               str_int (rows a) +:+ " rows") output;;
        print ("      Spacing: " +:+ str (spacing a)) output
      else mret ()
  | None => mret ()
  end.

(** Lines 30-69. *)
Definition cell_body (output : stream) (cell : cell) : M unit :=
  print ("Cell: " +:+ cell_name cell) output;;
  print ("  Polygons: " +:+
         str_int (Z.of_nat (length (cell_polygons cell)))) output;;
  print ("  Paths: " +:+ str_int (Z.of_nat (length (cell_paths cell)))) output;;
  print ("  Labels: " +:+
         str_int (Z.of_nat (length (cell_labels cell)))) output;;
  print ("  References: " +:+
         str_int (Z.of_nat (length (cell_references cell)))) output;;
  for_each (cell_polygons cell) (polygon_body output);;
  for_each (cell_paths cell) (path_body output);;
  for_each (cell_labels cell) (label_body output);;
  for_each (cell_references cell) (reference_body output);;
  print EmptyString output.

(** Lines 21-69: the body of the [try]. *)
Definition dump (gds_file : string) (output : stream) : M unit :=
  library ← load gds_file;
  print ("Library: " +:+ library_name library) output;;
  print ("Number of cells: " +:+
         str_int (Z.of_nat (length (library_cells library)))) output;;
  print ("Cells: " +:+
         str_list (repr <$> (cell_name <$> library_cells library))) output;;
  print EmptyString output;;
  for_each (library_cells library) (cell_body output).

(** Lines 6-73. *)
Definition inspect_gds (gds_file : string) (log_file : option string)
    : M unit :=
  output ← match log_file with
           | Some path =>
               if truthy log_file then open_w path else mret sys_stdout
           | None => mret sys_stdout
           end;
  try_finally
    (dump gds_file output)
    (if truthy log_file && bool_decide (output ≠ sys_stdout)
     then close output else mret ()).

(** ** The report, line by line

    The lines of the report in the order the specification gives them: one
    entry per [print] call. *)

Definition polygon_lines (poly : polygon) : list string :=
  [ "    Polygon - Layer " +:+ str_int (polygon_layer poly) +:+
    ", datatype " +:+ str_int (polygon_datatype poly);
    "      Points: " +:+ str (polygon_points poly) ].

Definition path_lines (path : path) : list string :=
  [ match path_layer_attrs_of path with
    | Layers layers datatypes =>
        "    Path - Layers " +:+ str layers +:+ ", datatypes " +:+ str datatypes
    | Layer layer datatype =>
        "    Path - Layer " +:+ str_int layer +:+
        ", datatype " +:+ str_int datatype
    end ] ++
  match path_spine path, path_points path with
  | Some spine, _ => [ "      Spine points: " +:+ str spine ]
  | None, Some points => [ "      Points: " +:+ str points ]
  | None, None => []
  end.

Definition label_lines (label : label) : list string :=
  [ "    Label - Layer " +:+ str_int (label_layer label) +:+
    ", texttype " +:+ str_int (label_texttype label);
    "      Text: " +:+ label_text label +:+
    ", Origin: " +:+ str (label_origin label) ].

(** The target line of a reference: absent without a [cell] attribute. *)
Definition target_lines (ref : reference) : list string :=
  match reference_cell ref with
  | NoCellAttr => []
  | CellNone => [ "    Reference to cell: Unknown" ]
  | CellNamed name => [ "    Reference to cell: " +:+ name ]
  end.

(** The four lines every reference gets. *)
Definition transform_lines (ref : reference) : list string :=
  [ "      Origin: " +:+ str (reference_origin ref);
    "      Rotation: " +:+ str (reference_rotation ref) +:+ " degrees";
    "      Magnification: " +:+ str (reference_magnification ref);
    "      X-reflection: " +:+ str_bool (reference_x_reflection ref) ].

(** The array line and the spacing line that follows it. *)
Definition array_line (a : array_attrs) : string :=
  "      Array: " +:+ str_int (columns a) +:+ " columns x " +:+
  str_int (rows a) +:+ " rows".

Definition spacing_line (a : array_attrs) : string :=
  "      Spacing: " +:+ str (spacing a).

Definition array_lines (ref : reference) : list string :=
  match reference_array ref with
  | Some a =>
      if bool_decide (columns a > 1) then [ array_line a; spacing_line a ]
      else []
  | None => []
  end.

Definition reference_lines (ref : reference) : list string :=
  target_lines ref ++ transform_lines ref ++ array_lines ref.

Definition cell_lines (cell : cell) : list string :=
  [ "Cell: " +:+ cell_name cell;
    "  Polygons: " +:+ str_int (Z.of_nat (length (cell_polygons cell)));
    "  Paths: " +:+ str_int (Z.of_nat (length (cell_paths cell)));
    "  Labels: " +:+ str_int (Z.of_nat (length (cell_labels cell)));
    "  References: " +:+ str_int (Z.of_nat (length (cell_references cell))) ]
  ++ (cell_polygons cell ≫= polygon_lines)
  ++ (cell_paths cell ≫= path_lines)
  ++ (cell_labels cell ≫= label_lines)
  ++ (cell_references cell ≫= reference_lines)
  ++ [ EmptyString ].

Definition report (library : library) : list string :=
  [ "Library: " +:+ library_name library;
    "Number of cells: " +:+
      str_int (Z.of_nat (length (library_cells library)));
    "Cells: " +:+ str_list (repr <$> (cell_name <$> library_cells library));
    EmptyString ]
  ++ (library_cells library ≫= cell_lines).


(** ** Running [print] over lines *)

Definition print_lines (lines : list string) (output : stream) : M unit :=
  for_each lines (λ line, print line output).

(** [m] does what printing [lines] to [output] does, in every world. *)
Definition prints (m : M unit) (output : stream) (lines : list string) : Prop :=
  ∀ w, m w = print_lines lines output w.


(** The device accepts [n] more writes. *)
Definition accepts (n : nat) (w : world) : Prop :=
  match write_budget w with
  | Some budget => (n ≤ budget)%nat
  | None => True
  end.





(** The path the report goes to, when [log_file] is true; [None] when it
    goes to standard output. *)
Definition log_path (log_file : option string) : option string :=
  if truthy log_file then log_file else None.

(** The sink can be opened (a log file) or is open (standard output), and
    the device accepts [n] writes. *)
Definition ready (log_file : option string) (n : nat) (w : world) : Prop :=
  accepts n w ∧
  match log_path log_file with
  | Some path => path ∉ unwritable w
  | None => stdout_closed w = false
  end.

(** The files on disk when the loader runs. *)
Definition files_at_load (log_file : option string) (w : world)
    : gmap string string :=
  match log_path log_file with
  | Some path => <[path := EmptyString]> (files w)
  | None => files w
  end.

(** The run from [w] to [w1] left [text] as its report: the whole log
    file, or what standard output gained. *)
Definition wrote (log_file : option string) (w w1 : world) (text : string)
    : Prop :=
  match log_path log_file with
  | Some path => files w1 !! path = Some text
  | None => stdout w1 = stdout w +:+ text
  end.

End Dump.

Arguments polygon : clear implicits.
Arguments path : clear implicits.
Arguments path_layer_attrs : clear implicits.
Arguments label : clear implicits.
Arguments array_attrs : clear implicits.
Arguments reference : clear implicits.
Arguments cell : clear implicits.
Arguments library : clear implicits.
Arguments Externals : clear implicits.

(** ** A small drawing to run the dump on

    Opaque values are carried as the text [str] gives for them. *)

Definition top_square : polygon string :=
  {| polygon_layer := 1; polygon_datatype := 0;
     polygon_points := "[[ 0.  0.] [10.  0.] [10. 10.] [ 0. 10.]]" |}.


Definition ref_array_3x2 : reference string :=
  {| reference_cell := CellNamed "UNIT";
     reference_origin := "(5.0, 5.0)"; reference_rotation := "0.0";
     reference_magnification := "1.0"; reference_x_reflection := false;
     reference_array :=
       Some {| columns := 3; rows := 2; spacing := "(20.0, 30.0)" |} |}.


Definition ref_cell_none : reference string :=
  {| reference_cell := CellNone;
     reference_origin := "(1.0, 2.0)"; reference_rotation := "1.5";
     reference_magnification := "2.0"; reference_x_reflection := true;
     reference_array := None |}.

Definition ref_no_cell_attr : reference string :=
  {| reference_cell := NoCellAttr;
     reference_origin := "(1.0, 2.0)"; reference_rotation := "1.5";
     reference_magnification := "2.0"; reference_x_reflection := true;
     reference_array := None |}.

Definition top_cell : cell string :=
  {| cell_name := "TOP"; cell_polygons := [ top_square ];
     cell_paths := []; cell_labels := [];
     cell_references := [ ref_array_3x2; ref_cell_none ] |}.

Definition top_library : library string :=
  {| library_name := "LIB"; library_cells := [ top_cell ] |}.

(** A loader that finds [top_library] in a file holding the text
    [gds:top] and rejects everything else. *)
#[export] Instance text_externals : Externals string :=
  {| str := λ v, v;
     repr := λ s, "'" +:+ s +:+ "'";
     read_gds := λ fs gds_file,
       if decide (fs !! gds_file = Some "gds:top") then Ok top_library
       else Raise (LibraryError "not a GDS file") |}.

(** A disk holding that file, nothing opened yet, a device that never
    fails. *)
Definition world0 : world :=
  {| files := {[ "top.gds" := "gds:top" ]};
     unwritable := ∅;
     file_objects := [];
     stdout := EmptyString;
     stdout_closed := false;
     write_budget := None |}.


(** The same disk where [ro.log] cannot be opened for writing, with some
    text on standard output already. *)
Definition world_read_only : world :=
  {| files := files world0; unwritable := {[ "ro.log" ]};
     file_objects := [];
     stdout := "earlier output"; stdout_closed := false;
     write_budget := None |}.


Definition path_bare : path string :=
  {| path_layer_attrs_of := Layer 3 0;
     path_spine := None; path_points := None |}.

End ReadGds.

(* ===================================================================== *)
(** * Facts about the grid packer *)
(* ===================================================================== *)

Module ShowcaseFacts.

Import Showcase.

Section PackerFacts.

Context {Component : Type} (env : closure_env).
Implicit Types (g : grid Component) (component : Component) (label : string).
Implicit Types (items : list (Component * string)).

Lemma move_last (c0 : list (reference Component)) r v :
  move (c0 ++ [r]) (length c0) v = c0 ++ [translate v r].
Proof.
  unfold move. rewrite alter_app_r_alt by lia.
  by rewrite Nat.sub_diag.
Qed.

Lemma add_component_to_grid_c g component label :
  c (add_component_to_grid env g component label) =
    c g ++ placed env g component label.
Proof.
  unfold add_component_to_grid, add_ref, placed, item_pos.
  rewrite !move_last. unfold translate; simpl.
  rewrite !Z.add_0_l.
  case_bool_decide; simpl; by rewrite <- app_assoc.
Qed.

Lemma place_spiral_c g component :
  c (place_spiral env g component) = c g ++ placed env g component "Spiral".
Proof.
  unfold place_spiral, add_ref, placed, item_pos.
  rewrite !move_last. unfold translate; simpl.
  rewrite !Z.add_0_l. by rewrite <- app_assoc.
Qed.

Lemma add_component_to_grid_cell g component label :
  cell (add_component_to_grid env g component label) =
    if bool_decide (col g + 1 >= max_cols env)
    then (row g + 1, 0) else (row g, col g + 1).
Proof.
  unfold add_component_to_grid, add_ref, cell.
  by case_bool_decide.
Qed.

Lemma add_component_to_grid_index g component label :
  cursor_ok env g →
  cursor_ok env (add_component_to_grid env g component label) ∧
  cell_index env (add_component_to_grid env g component label) =
    cell_index env g + 1.
Proof.
  unfold cursor_ok, cell_index. intros Hg.
  pose proof (add_component_to_grid_cell g component label) as Hc.
  unfold cell in Hc. case_bool_decide; inversion Hc as [[Hr Hcol]];
    rewrite ?Hr, ?Hcol; lia.
Qed.

Lemma place_all_app g items1 items2 :
  place_all env g (items1 ++ items2) =
    place_all env (place_all env g items1) items2.
Proof. unfold place_all. by rewrite fold_left_app. Qed.

Lemma place_all_index items :
  ∀ g, cursor_ok env g →
    cursor_ok env (place_all env g items) ∧
    cell_index env (place_all env g items) =
      cell_index env g + Z.of_nat (length items).
Proof.
  induction items as [|[component label] items IH]; intros g Hg; simpl.
  - split; [done | lia].
  - destruct (add_component_to_grid_index g component label Hg) as [Hok Hidx].
    destruct (IH _ Hok) as [Hok' Hidx']. split; [done |].
    rewrite Hidx', Hidx. lia.
Qed.

Lemma cell_of_index g :
  cursor_ok env g →
  cell g = (cell_index env g `div` max_cols env,
            cell_index env g `mod` max_cols env).
Proof.
  unfold cursor_ok, cell_index, cell. intros Hg. f_equal.
  - apply Z.div_unique with (r := col g); lia.
  - apply Z.mod_unique with (q := row g); lia.
Qed.

Lemma place_all_c_length items :
  ∀ g, length (c (place_all env g items)) =
         (length (c g) + 2 * length items)%nat.
Proof.
  induction items as [|[component label] items IH]; intros g; simpl.
  - lia.
  - rewrite IH, add_component_to_grid_c, length_app. simpl. lia.
Qed.

Lemma place_all_c_extends items :
  ∀ g, ∃ tail, c (place_all env g items) = c g ++ tail.
Proof.
  induction items as [|[component label] items IH]; intros g; simpl.
  - exists []. by rewrite app_nil_r.
  - destruct (IH (add_component_to_grid env g component label)) as [tail Ht].
    rewrite Ht, add_component_to_grid_c, <- app_assoc. eauto.
Qed.

Lemma components_of_app (c1 c2 : list (reference Component)) :
  components_of (c1 ++ c2) = components_of c1 ++ components_of c2.
Proof. unfold components_of. apply omap_app. Qed.

Lemma place_all_components items :
  ∀ g, components_of (c (place_all env g items)) =
         components_of (c g) ++ items.*1.
Proof.
  induction items as [|[component label] items IH]; intros g; simpl.
  - by rewrite app_nil_r.
  - rewrite IH, add_component_to_grid_c, components_of_app, <- app_assoc.
    done.
Qed.

Lemma run_op_row g (o : op Component) : row g <= row (run_op env g o).
Proof.
  destruct o as [component label|]; simpl.
  - pose proof (add_component_to_grid_cell g component label) as Hc.
    unfold cell in Hc. case_bool_decide; inversion Hc as [[Hr Hcol]];
      rewrite Hr; lia.
  - unfold force_new_row. case_bool_decide; simpl; lia.
Qed.

Lemma run_op_cursor_ok g (o : op Component) :
  0 < max_cols env → cursor_ok env g → cursor_ok env (run_op env g o).
Proof.
  intros Hm Hg. destruct o as [component label|]; simpl.
  - by apply add_component_to_grid_index.
  - unfold force_new_row, cursor_ok in *. case_bool_decide; simpl; lia.
Qed.

Lemma run_ops_row (ops : list (op Component)) :
  ∀ g, row g <= row (run_ops env g ops).
Proof.
  induction ops as [|o ops IH]; intros g; simpl; [lia |].
  etrans; [apply (run_op_row g o) | apply IH].
Qed.

Lemma run_ops_cursor_ok (ops : list (op Component)) :
  0 < max_cols env → ∀ g, cursor_ok env g → cursor_ok env (run_ops env g ops).
Proof.
  intros Hm. induction ops as [|o ops IH]; intros g Hg; simpl; [done |].
  apply IH. by apply run_op_cursor_ok.
Qed.

(** C1: with [0 < max_cols], the k-th (0-indexed) of any run of placements
    onto the fresh grid finds the cursor at cell
    [(k div max_cols, k mod max_cols)], and the reference it inserts (the
    [2k]-th of the drawing, each placement inserting the item and then its
    caption) ends at [x = x_start + (k mod max_cols) * x_spacing],
    [y = y_start - (k div max_cols) * y_spacing]. *)
Theorem kth_placement_cell_and_position items (k : nat) component label :
  0 < max_cols env →
  items !! k = Some (component, label) →
  cell (place_all env fresh (take k items)) =
    (Z.of_nat k `div` max_cols env, Z.of_nat k `mod` max_cols env) ∧
  c (place_all env fresh items) !! (2 * k)%nat =
    Some {| ref_of := ComponentOf component;
            ref_origin :=
              (x_start env + (Z.of_nat k `mod` max_cols env) * x_spacing env,
               y_start env - (Z.of_nat k `div` max_cols env) * y_spacing env) |}.
Proof.
  intros Hm Hk.
  assert (Hlt : (k < length items)%nat) by (eapply lookup_lt_Some; eauto).
  set (gk := place_all env fresh (take k items)).
  assert (Hfresh : cursor_ok env (@fresh Component)) by (unfold cursor_ok; simpl; lia).
  destruct (place_all_index (take k items) fresh Hfresh) as [Hok Hidx].
  fold gk in Hok, Hidx.
  rewrite length_take, Nat.min_l in Hidx by lia.
  assert (Hcell : cell gk =
    (Z.of_nat k `div` max_cols env, Z.of_nat k `mod` max_cols env)).
  { rewrite (cell_of_index gk Hok), Hidx. unfold cell_index; simpl.
    by rewrite Z.add_0_l. }
  split; [done |].
  rewrite <- (take_drop_middle items k (component, label) Hk).
  rewrite place_all_app. fold gk. simpl.
  destruct (place_all_c_extends (drop (S k) items)
              (add_component_to_grid env gk component label)) as [tail ->].
  rewrite add_component_to_grid_c.
  assert (Hlen : length (c gk) = (2 * k)%nat).
  { unfold gk. rewrite place_all_c_length, length_take. simpl. lia. }
  rewrite <- app_assoc, lookup_app_r by lia.
  rewrite Hlen, Nat.sub_diag. simpl.
  unfold item_pos. unfold cell in Hcell. inversion Hcell as [[Hr Hc]].
  by rewrite Hr, Hc.
Qed.

(** C2: with [0 < max_cols], every operation on the cursor (a placement or
    the forced row break) and every sequence of them preserves
    [0 <= col < max_cols], and [row] never decreases along a sequence of
    operations. *)
Theorem cursor_invariant_and_row_monotone g (o : op Component)
    (ops1 ops2 : list (op Component)) :
  0 < max_cols env →
  cursor_ok env g →
  cursor_ok env (run_op env g o) ∧
  cursor_ok env (run_ops env g ops1) ∧
  row g <= row (run_ops env g ops1) ∧
  row (run_ops env g ops1) <= row (run_ops env g (ops1 ++ ops2)).
Proof.
  intros Hm Hg. split_and!.
  - by apply run_op_cursor_ok.
  - by apply run_ops_cursor_ok.
  - apply run_ops_row.
  - unfold run_ops at 2. rewrite fold_left_app. apply run_ops_row.
Qed.

(** C3: the forced row break leaves the state unchanged if and only if
    [col = 0]; otherwise it adds exactly one to [row] and sets [col] to 0
    (the drawing is untouched); applying it twice equals applying it once. *)
Theorem force_new_row_noop_iff_col_zero g :
  (force_new_row g = g ↔ col g = 0) ∧
  (col g ≠ 0 →
     force_new_row g = {| c := c g; row := row g + 1; col := 0 |}) ∧
  force_new_row (force_new_row g) = force_new_row g.
Proof.
  unfold force_new_row. split_and!.
  - split; intros H.
    + case_bool_decide as Hc; [| lia].
      apply (f_equal col) in H. simpl in H. congruence.
    + rewrite bool_decide_eq_false_2; [done | lia].
  - intros Hc. by rewrite bool_decide_eq_true_2.
  - destruct (decide (col g = 0)) as [H0|H0].
    + by rewrite !(bool_decide_eq_false_2 (col g ≠ 0)) by lia.
    + by rewrite (bool_decide_eq_true_2 (col g ≠ 0)) by done.
Qed.

(** C4: a grid placement and the placement of the spiral each append two
    references to the drawing, the item at the position [(x_pos, y_pos)]
    computed from the cursor and then its caption at
    [(x_pos - 50, y_pos - 40)] for the same [(x_pos, y_pos)]. *)
Theorem caption_offset_from_item g component label :
  (∃ item caption,
     c (add_component_to_grid env g component label) = c g ++ [item; caption] ∧
     item = {| ref_of := ComponentOf component;
               ref_origin := (x_start env + col g * x_spacing env,
                              y_start env - row g * y_spacing env) |} ∧
     caption = {| ref_of := TextOf label 10 (1, 0);
                  ref_origin := ((ref_origin item).1 - 50,
                                 (ref_origin item).2 - 40) |}) ∧
  (∃ item caption,
     c (place_spiral env g component) = c g ++ [item; caption] ∧
     item = {| ref_of := ComponentOf component;
               ref_origin := (x_start env + col g * x_spacing env,
                              y_start env - row g * y_spacing env) |} ∧
     caption = {| ref_of := TextOf "Spiral" 10 (1, 0);
                  ref_origin := ((ref_origin item).1 - 50,
                                 (ref_origin item).2 - 40) |}).
Proof.
  split; eexists _, _; (split; [| split; reflexivity]).
  - apply add_component_to_grid_c.
  - apply place_spiral_c.
Qed.

(** C5: each call of [add_component_to_grid] moves the cursor to a cell
    strictly greater in lexicographic order, by exactly one grid cell: to
    [(row, col + 1)] while [col + 1 < max_cols], to [(row + 1, 0)] when
    [col] has reached [max_cols - 1] (under the cursor invariant, the next
    cell in row-major order); and the components of the drawing after a
    run of calls are those of the calls, in call order. *)
Theorem placement_advances_one_cell_in_call_order g component label items :
  cell_lt (cell g) (cell (add_component_to_grid env g component label)) ∧
  (col g < max_cols env - 1 →
     cell (add_component_to_grid env g component label) = (row g, col g + 1)) ∧
  (col g = max_cols env - 1 →
     cell (add_component_to_grid env g component label) = (row g + 1, 0)) ∧
  (cursor_ok env g →
     cell_index env (add_component_to_grid env g component label) =
       cell_index env g + 1) ∧
  components_of (c (place_all env g items)) = components_of (c g) ++ items.*1.
Proof.
  rewrite add_component_to_grid_cell. unfold cell_lt, cell. split_and!.
  - case_bool_decide; simpl; lia.
  - intros Hc. rewrite bool_decide_eq_false_2 by lia. done.
  - intros Hc. rewrite bool_decide_eq_true_2 by lia. done.
  - intros Hg. by apply add_component_to_grid_index.
  - apply place_all_components.
Qed.

End PackerFacts.

(** ** The showcase itself *)

(** The first five calls of the showcase: five items, four columns. *)
Example five_items_four_columns :
  (λ k, cell (place_all showcase_env fresh (take k grid_calls)))
    <$> [0; 1; 2; 3; 4]%nat
  = [(0, 0); (0, 1); (0, 2); (0, 3); (1, 0)].
Proof. reflexivity. Qed.

(** After the thirty grid calls the cursor is mid-row at cell (7,2); the
    row break moves it to (8,0), where the spiral and its label go. *)
Example showcase_cursor :
  cell (place_all showcase_env fresh grid_calls) = (7, 2) ∧
  cell (force_new_row (place_all showcase_env fresh grid_calls)) = (8, 0) ∧
  length pic_component_showcase = 62%nat ∧
  drop 60 pic_component_showcase =
    [ {| ref_of := ComponentOf spiral; ref_origin := (0, -800) |};
      {| ref_of := TextOf "Spiral" 10 (1, 0); ref_origin := (-50, -840) |} ].
Proof. by vm_compute. Qed.

(** All thirty-one items of the showcase, the spiral included, have their
    label 50 to the left and 40 below. *)
Example showcase_captions :
  length (caption_pairs pic_component_showcase) = 31%nat ∧
  Forall (λ p, ref_origin p.2 =
                 ((ref_origin p.1).1 - 50, (ref_origin p.1).2 - 40))
         (caption_pairs pic_component_showcase).
Proof. split; [reflexivity |]. vm_compute. repeat constructor. Qed.

(** C1 on the first five calls of the showcase, with four columns: the
    cells are (0,0), (0,1), (0,2), (0,3) and (1,0), and the fifth item
    lands at [(0, -100)]. *)
Lemma kth_placement_witness :
  0 < max_cols showcase_env ∧
  cell (place_all showcase_env fresh (take 0 (take 5 grid_calls))) = (0, 0) ∧
  cell (place_all showcase_env fresh (take 1 (take 5 grid_calls))) = (0, 1) ∧
  cell (place_all showcase_env fresh (take 2 (take 5 grid_calls))) = (0, 2) ∧
  cell (place_all showcase_env fresh (take 3 (take 5 grid_calls))) = (0, 3) ∧
  cell (place_all showcase_env fresh (take 4 (take 5 grid_calls))) = (1, 0) ∧
  c (place_all showcase_env fresh (take 5 grid_calls)) !! 8%nat =
    Some {| ref_of := ComponentOf disk_heater; ref_origin := (0, -100) |}.
Proof.
  assert (Hm : 0 < max_cols showcase_env) by reflexivity.
  split_and!; [exact Hm | ..].
  - apply (kth_placement_cell_and_position showcase_env (take 5 grid_calls) 0
             detector "Ge Photodetector" Hm eq_refl).
  - apply (kth_placement_cell_and_position showcase_env (take 5 grid_calls) 1
             heater_metal "Metal Heater" Hm eq_refl).
  - apply (kth_placement_cell_and_position showcase_env (take 5 grid_calls) 2
             modulator_pn "PN Modulator" Hm eq_refl).
  - apply (kth_placement_cell_and_position showcase_env (take 5 grid_calls) 3
             modulator_pin "PIN Modulator" Hm eq_refl).
  - apply (kth_placement_cell_and_position showcase_env (take 5 grid_calls) 4
             disk_heater "Disk Heater" Hm eq_refl).
  - apply (kth_placement_cell_and_position showcase_env (take 5 grid_calls) 4
             disk_heater "Disk Heater" Hm eq_refl).
Defined.

(** C2 on the fresh showcase grid: a placement, then the row break, then
    two more placements. *)
Lemma cursor_invariant_witness :
  0 < max_cols showcase_env ∧
  cursor_ok showcase_env (@fresh catalogue) ∧
  cursor_ok showcase_env (run_op showcase_env (@fresh catalogue) ForceNewRow) ∧
  cursor_ok showcase_env
    (run_ops showcase_env fresh [Place detector "Ge Photodetector"; ForceNewRow]) ∧
  row (@fresh catalogue) <=
    row (run_ops showcase_env fresh
           [Place detector "Ge Photodetector"; ForceNewRow]) ∧
  row (run_ops showcase_env fresh
         [Place detector "Ge Photodetector"; ForceNewRow]) <=
    row (run_ops showcase_env fresh
           ([Place detector "Ge Photodetector"; ForceNewRow] ++
            [Place heater_metal "Metal Heater"; Place awg "AWG 10x4"])).
Proof.
  split; [reflexivity |].
  split; [unfold cursor_ok; simpl; lia |].
  apply (cursor_invariant_and_row_monotone showcase_env fresh ForceNewRow
           [Place detector "Ge Photodetector"; ForceNewRow]
           [Place heater_metal "Metal Heater"; Place awg "AWG 10x4"]).
  - reflexivity.
  - unfold cursor_ok; simpl; lia.
Defined.

(** C3 on the showcase: its row break happens mid-row, at cell (7,2). *)
Lemma force_new_row_witness :
  col (place_all showcase_env fresh grid_calls) ≠ 0 ∧
  force_new_row (place_all showcase_env fresh grid_calls) =
    {| c := c (place_all showcase_env fresh grid_calls);
       row := row (place_all showcase_env fresh grid_calls) + 1;
       col := 0 |}.
Proof.
  assert (H : col (place_all showcase_env fresh grid_calls) ≠ 0)
    by (vm_compute; discriminate).
  split; [exact H |].
  exact (proj1 (proj2 (force_new_row_noop_iff_col_zero
                         (place_all showcase_env fresh grid_calls))) H).
Defined.

(** C5 on the showcase: the fourth call wraps from column 3. *)
Lemma placement_advances_witness :
  col (place_all showcase_env fresh (take 3 grid_calls)) =
    max_cols showcase_env - 1 ∧
  cell (add_component_to_grid showcase_env
          (place_all showcase_env fresh (take 3 grid_calls))
          modulator_pin "PIN Modulator") = (0 + 1, 0).
Proof.
  split; [reflexivity |].
  apply (proj1 (proj2 (proj2 (placement_advances_one_cell_in_call_order
    showcase_env (place_all showcase_env fresh (take 3 grid_calls))
    modulator_pin "PIN Modulator" [])))).
  reflexivity.
Defined.

End ShowcaseFacts.

(* ===================================================================== *)
(** * Facts about the structure dump *)
(* ===================================================================== *)

Module ReadGdsFacts.

Import ReadGds.

(** ** Strings *)

Lemma string_app_assoc (s1 s2 s3 : string) :
  (s1 +:+ s2) +:+ s3 = s1 +:+ (s2 +:+ s3).
Proof.
  induction s1 as [|a s1 IH]; [done |].
  change (String a ((s1 +:+ s2) +:+ s3) = String a (s1 +:+ (s2 +:+ s3))).
  by rewrite IH.
Qed.

Lemma string_app_nil_r (s : string) : s +:+ EmptyString = s.
Proof.
  induction s as [|a s IH]; [done |].
  change (String a (s +:+ EmptyString) = String a s). by rewrite IH.
Qed.

Lemma unlines_cons (line : string) (lines : list string) :
  unlines (line :: lines) = (line +:+ newline) +:+ unlines lines.
Proof. unfold unlines; simpl. by rewrite string_app_assoc. Qed.

(** ** Sequences of [print] calls *)

Section Printing.

Implicit Types (w : world) (output : stream) (lines : list string).

Lemma print_lines_cons line lines output w :
  print_lines (line :: lines) output w =
    match print line output w with
    | (Ok _, w1) => print_lines lines output w1
    | (Raise e, w1) => (Raise e, w1)
    end.
Proof. done. Qed.

Lemma print_lines_app lines1 lines2 output w :
  print_lines (lines1 ++ lines2) output w =
    match print_lines lines1 output w with
    | (Ok _, w1) => print_lines lines2 output w1
    | (Raise e, w1) => (Raise e, w1)
    end.
Proof.
  revert w. induction lines1 as [|line lines1 IH]; intros w; [done |].
  simpl. unfold print_lines in *; simpl. unfold mbind, M_bind.
  destruct (print line output w) as [[[]|e] w1]; [apply IH | done].
Qed.

Lemma prints_nil output : prints (mret ()) output [].
Proof. by intros w. Qed.

Lemma prints_one line output : prints (print line output) output [line].
Proof.
  intros w. unfold print_lines; simpl. unfold mbind, M_bind.
  by destruct (print line output w) as [[[]|e] w1].
Qed.

Lemma prints_seq m1 m2 output lines1 lines2 lines :
  prints m1 output lines1 → prints m2 output lines2 →
  lines = lines1 ++ lines2 →
  prints (m1;; m2) output lines.
Proof.
  intros H1 H2 -> w. rewrite print_lines_app. unfold mbind, M_bind.
  rewrite H1. destruct (print_lines lines1 output w) as [[[]|e] w1]; [| done].
  apply H2.
Qed.

Lemma prints_for_each {A : Type} (body : A → M unit) (f : A → list string)
    (xs : list A) output :
  (∀ x, prints (body x) output (f x)) →
  prints (for_each xs body) output (xs ≫= f).
Proof.
  intros Hbody. induction xs as [|x xs IH]; simpl.
  - apply prints_nil.
  - by eapply prints_seq.
Qed.

(** *** What [print] leaves alone *)

Lemma print_frame line output w :
  file_objects (print line output w).2 = file_objects w ∧
  stdout_closed (print line output w).2 = stdout_closed w ∧
  unwritable (print line output w).2 = unwritable w.
Proof.
  unfold print. destruct (negb (is_open output w)); [done |].
  case_bool_decide; [done |]. simpl.
  destruct output as [|handle]; simpl; [done |].
  by destruct (file_objects w !! handle).
Qed.

Lemma print_lines_frame lines output :
  ∀ w, file_objects (print_lines lines output w).2 = file_objects w ∧
       stdout_closed (print_lines lines output w).2 = stdout_closed w ∧
       unwritable (print_lines lines output w).2 = unwritable w.
Proof.
  induction lines as [|line lines IH]; intros w; [done |].
  rewrite print_lines_cons.
  pose proof (print_frame line output w) as Hp.
  destruct (print line output w) as [[[]|e] w1]; simpl in Hp; [| done].
  destruct (IH w1) as (-> & -> & ->). done.
Qed.

(** *** Successful writes *)

Lemma is_open_spend_written n text output file w :
  is_open output (spend n (written text file w)) = is_open output w.
Proof.
  destruct output as [|h], file as [|h']; simpl; try done.
  all: by destruct (file_objects w !! h').
Qed.

Lemma written_nil output w : spend 0 (written EmptyString output w) = w.
Proof.
  assert (Hb : ∀ b : option nat, (λ budget, (budget - 0)%nat) <$> b = b).
  { intros [b|]; simpl; [f_equal; lia | done]. }
  destruct w as [fs uw fos out cl b], output as [|h];
    unfold spend, written; simpl.
  - by rewrite string_app_nil_r, Hb.
  - destruct (fos !! h) as [f|]; simpl; rewrite Hb; [| done].
    rewrite alter_id; [done |]. intros x _. apply string_app_nil_r.
Qed.

Lemma written_written n text1 text2 output w :
  spend n (written text2 output (spend 1 (written text1 output w))) =
  spend (S n) (written (text1 +:+ text2) output w).
Proof.
  assert (Hb : ∀ b : option nat,
    (λ budget, (budget - n)%nat) <$> ((λ budget, (budget - 1)%nat) <$> b) =
    (λ budget, (budget - S n)%nat) <$> b).
  { intros [b|]; simpl; [f_equal; lia | done]. }
  destruct w as [fs uw fos out cl b], output as [|h];
    unfold spend, written; simpl.
  - by rewrite string_app_assoc, Hb.
  - destruct (fos !! h) as [f|] eqn:Hf; simpl; rewrite ?Hf; simpl;
      rewrite Hb; [| done].
    rewrite alter_alter_eq. f_equal. apply alter_ext. intros x _. simpl.
    apply string_app_assoc.
Qed.

Lemma print_ok line output w :
  is_open output w = true → write_budget w ≠ Some 0%nat →
  print line output w = (Ok (), spend 1 (written (line +:+ newline) output w)).
Proof.
  intros Ho Hb. unfold print. rewrite Ho. simpl.
  by rewrite bool_decide_eq_false_2.
Qed.

Lemma print_lines_ok lines output :
  ∀ w, is_open output w = true → accepts (length lines) w →
    print_lines lines output w =
      (Ok (), spend (length lines) (written (unlines lines) output w)).
Proof.
  induction lines as [|line lines IH]; intros w Ho Hb.
  - by rewrite written_nil.
  - rewrite print_lines_cons, print_ok; [| done |].
    + rewrite IH.
      * by rewrite written_written, unlines_cons.
      * by rewrite is_open_spend_written.
      * unfold accepts in *. destruct w as [fs uw fos out cl [b|]];
          destruct output as [|h]; simpl in *; try done; try lia.
        all: destruct (fos !! h); simpl; try done; lia.
    + unfold accepts in Hb. destruct (write_budget w) as [b|]; [| done].
      simpl in Hb. intros [= ->]. lia.
Qed.

(** *** A device that fails partway *)

Lemma print_lines_short lines output :
  ∀ w budget, is_open output w = true →
    write_budget w = Some budget → (budget < length lines)%nat →
    ∃ w1, print_lines lines output w = (Raise OSError, w1).
Proof.
  induction lines as [|line lines IH]; intros w budget Ho Hb Hlt;
    [simpl in Hlt; lia |].
  rewrite print_lines_cons. destruct budget as [|budget].
  - exists w. unfold print. by rewrite Ho, Hb.
  - rewrite print_ok; [| done | by rewrite Hb].
    apply (IH _ budget).
    + by rewrite is_open_spend_written.
    + destruct w as [fs uw fos out cl b]; simpl in Hb; subst b.
      destruct output as [|h]; simpl; [by rewrite Nat.sub_0_r |].
      destruct (fos !! h); simpl; by rewrite Nat.sub_0_r.
    + simpl in Hlt. lia.
Qed.

(** *** The text that ends up in the sink *)


End Printing.

(** Splits a sequence of statements into its [print] calls. *)
Ltac prints_steps :=
  first
    [ apply prints_one
    | apply prints_nil
    | eapply prints_seq; [prints_steps | prints_steps | reflexivity] ].

(** Peels the leading [print] call off a sequence. *)
Ltac prints_head :=
  eapply (prints_seq _ _ _ [_]); [apply prints_one | | reflexivity].

Section DumpFacts.

Context {pyval : Type} {ext : Externals pyval}.
Implicit Types (w : world) (output : stream) (lines : list string).

Lemma polygon_body_prints output (poly : polygon pyval) :
  prints (polygon_body output poly) output (polygon_lines poly).
Proof. unfold polygon_body, polygon_lines. prints_steps. Qed.

Lemma path_body_prints output (p : path pyval) :
  prints (path_body output p) output (path_lines p).
Proof.
  unfold path_body, path_lines.
  eapply prints_seq; [| | reflexivity].
  - destruct (path_layer_attrs_of p); apply prints_one.
  - destruct (path_spine p), (path_points p); prints_steps.
Qed.

Lemma label_body_prints output (l : label pyval) :
  prints (label_body output l) output (label_lines l).
Proof. unfold label_body, label_lines. prints_steps. Qed.

Lemma reference_body_prints output (ref : reference pyval) :
  prints (reference_body output ref) output (reference_lines ref).
Proof.
  unfold reference_body, reference_lines.
  apply (prints_seq _ _ _ (target_lines ref)
           (transform_lines ref ++ array_lines ref)); [| | done].
  - unfold target_lines. destruct (reference_cell ref); prints_steps.
  - unfold transform_lines. do 4 prints_head.
    unfold array_lines. destruct (reference_array ref) as [a|]; [| prints_steps].
    case_bool_decide; prints_steps.
Qed.

Lemma cell_body_prints output (cl : cell pyval) :
  prints (cell_body output cl) output (cell_lines cl).
Proof.
  unfold cell_body, cell_lines. do 5 prints_head.
  eapply prints_seq;
    [apply prints_for_each, polygon_body_prints | | reflexivity].
  eapply prints_seq;
    [apply prints_for_each, path_body_prints | | reflexivity].
  eapply prints_seq;
    [apply prints_for_each, label_body_prints | | reflexivity].
  eapply prints_seq;
    [apply prints_for_each, reference_body_prints | | reflexivity].
  apply prints_one.
Qed.

(** The body of the [try] loads the drawing and then prints the report. *)
Lemma dump_run gds_file output w :
  dump gds_file output w =
    match read_gds (files w) gds_file with
    | Ok library => print_lines (report library) output w
    | Raise e => (Raise e, w)
    end.
Proof.
  unfold dump, load. unfold mbind at 1. unfold M_bind at 1.
  destruct (read_gds (files w) gds_file) as [library|e]; [| done].
  revert w. change (prints
    (print ("Library: " +:+ library_name library) output;;
     print ("Number of cells: " +:+
            str_int (Z.of_nat (length (library_cells library)))) output;;
     print ("Cells: " +:+
            str_list (repr <$> (cell_name <$> library_cells library))) output;;
     print EmptyString output;;
     for_each (library_cells library) (cell_body output))
    output (report library)).
  unfold report. do 4 prints_head.
  apply prints_for_each, cell_body_prints.
Qed.

Lemma dump_frame gds_file output w :
  file_objects (dump gds_file output w).2 = file_objects w ∧
  stdout_closed (dump gds_file output w).2 = stdout_closed w ∧
  unwritable (dump gds_file output w).2 = unwritable w.
Proof.
  rewrite dump_run. destruct (read_gds (files w) gds_file); [| done].
  apply print_lines_frame.
Qed.

(** With a log file that can be opened, [inspect_gds] is the [try] body run
    on the new file object, followed by [close] whatever the outcome. *)
Lemma inspect_gds_log gds_file path w :
  path ≠ EmptyString → path ∉ unwritable w →
  inspect_gds gds_file (Some path) w =
    ((dump gds_file (file_at (length (file_objects w))) (opened path w)).1,
     closed (file_at (length (file_objects w)))
       (dump gds_file (file_at (length (file_objects w))) (opened path w)).2).
Proof.
  intros Hne Hw. unfold inspect_gds, truthy.
  rewrite bool_decide_eq_true_2 by done.
  unfold mbind at 1. unfold M_bind at 1. unfold open_w.
  rewrite decide_False by done. unfold try_finally.
  by destruct (dump gds_file _ (opened path w)) as [r w1].
Qed.

Lemma inspect_gds_unwritable gds_file path w :
  path ≠ EmptyString → path ∈ unwritable w →
  inspect_gds gds_file (Some path) w = (Raise OSError, w).
Proof.
  intros Hne Hw. unfold inspect_gds, truthy.
  rewrite bool_decide_eq_true_2 by done.
  unfold mbind at 1. unfold M_bind at 1. unfold open_w.
  by rewrite decide_True.
Qed.

(** Without a log file (or with the empty path) it is the [try] body run on
    standard output. *)
Lemma inspect_gds_stdout gds_file log_file w :
  truthy log_file = false →
  inspect_gds gds_file log_file w = dump gds_file sys_stdout w.
Proof.
  intros Hf. unfold inspect_gds.
  destruct log_file as [path|]; rewrite ?Hf;
    unfold mbind at 1; unfold M_bind at 1; unfold try_finally; simpl;
    by destruct (dump gds_file sys_stdout w) as [r w1].
Qed.

Lemma truthy_cases (log_file : option string) :
  (truthy log_file = false ∧ log_path log_file = None) ∨
  (∃ path, log_file = Some path ∧ path ≠ EmptyString ∧
           truthy log_file = true ∧ log_path log_file = Some path).
Proof.
  unfold log_path. destruct log_file as [path|]; simpl; [| by left].
  case_bool_decide; [right; by exists path | by left].
Qed.

Lemma opened_is_open path w :
  is_open (file_at (length (file_objects w))) (opened path w) = true.
Proof.
  unfold opened; simpl.
  by rewrite lookup_app_r, Nat.sub_diag by lia.
Qed.

Lemma closed_file_objects path w w1 :
  file_objects w1 = file_objects (opened path w) →
  file_objects (closed (file_at (length (file_objects w))) w1) =
    file_objects w ++ [ {| fo_name := path; fo_closed := true |} ].
Proof.
  intros H. unfold closed; simpl. rewrite H. unfold opened; simpl.
  by rewrite alter_app_r_alt, Nat.sub_diag by lia.
Qed.

(** A successful run to a log file that can be opened. *)
Lemma inspect_gds_log_ok gds_file path w (lib : library pyval) :
  path ≠ EmptyString → path ∉ unwritable w →
  accepts (length (report lib)) w →
  read_gds (<[path := EmptyString]> (files w)) gds_file = Ok lib →
  (inspect_gds gds_file (Some path) w).1 = Ok () ∧
  files (inspect_gds gds_file (Some path) w).2 !! path =
    Some (unlines (report lib)).
Proof.
  intros Hne Hw Hacc Hload. rewrite inspect_gds_log by done.
  rewrite dump_run. change (files (opened path w))
    with (<[path := EmptyString]> (files w)). rewrite Hload.
  rewrite print_lines_ok; [| apply opened_is_open | done].
  split; [done |]. simpl.
  rewrite lookup_app_r, Nat.sub_diag by lia. simpl.
  by rewrite lookup_alter_eq, lookup_insert_eq.
Qed.

(** A successful run to standard output. *)
Lemma inspect_gds_stdout_ok gds_file log_file w (lib : library pyval) :
  truthy log_file = false → stdout_closed w = false →
  accepts (length (report lib)) w →
  read_gds (files w) gds_file = Ok lib →
  (inspect_gds gds_file log_file w).1 = Ok () ∧
  stdout (inspect_gds gds_file log_file w).2 =
    stdout w +:+ unlines (report lib).
Proof.
  intros Hf Hopen Hacc Hload. rewrite inspect_gds_stdout by done.
  rewrite dump_run, Hload.
  rewrite print_lines_ok; [done | | done]. simpl. by rewrite Hopen.
Qed.




(** One run that finds its sink ready and its drawing loadable. *)
Lemma inspect_gds_report gds_file log_file w (lib : library pyval) :
  ready log_file (length (report lib)) w →
  read_gds (files_at_load log_file w) gds_file = Ok lib →
  (inspect_gds gds_file log_file w).1 = Ok () ∧
  wrote log_file w (inspect_gds gds_file log_file w).2 (unlines (report lib)).
Proof.
  unfold ready, files_at_load, wrote. intros [Hacc Hsink] Hload.
  destruct (truthy_cases log_file) as [[Hf Hp]|(path & -> & Hne & _ & Hp)];
    rewrite Hp in *.
  - by apply inspect_gds_stdout_ok.
  - by apply inspect_gds_log_ok.
Qed.






(** C7: with a log file that can be opened, [inspect_gds] ends with the
    outcome of its [try] body, whatever it is, and with the file object it
    opened closed (the file objects made before are as they were): when the
    loader raises, that exception is the outcome; when the device fails
    before the report is complete, [OSError] is. Whatever the arguments,
    standard output is as open after the run as it was before. *)
Theorem log_file_closed_on_every_exit gds_file path w :
  (path ≠ EmptyString → path ∉ unwritable w →
   ∃ r w1,
     dump gds_file (file_at (length (file_objects w))) (opened path w)
       = (r, w1) ∧
     inspect_gds gds_file (Some path) w
       = (r, closed (file_at (length (file_objects w))) w1) ∧
     file_objects (inspect_gds gds_file (Some path) w).2
       = file_objects w ++ [ {| fo_name := path; fo_closed := true |} ] ∧
     (∀ e, read_gds (files (opened path w)) gds_file = Raise e →
        r = Raise e) ∧
     (∀ lib budget,
        read_gds (files (opened path w)) gds_file = Ok lib →
        write_budget w = Some budget →
        (budget < length (report lib))%nat →
        r = Raise OSError)) ∧
  (∀ log_file,
     stdout_closed (inspect_gds gds_file log_file w).2 = stdout_closed w).
Proof.
  split.
  - intros Hne Hw. rewrite inspect_gds_log by done.
    pose proof (dump_frame gds_file (file_at (length (file_objects w)))
                  (opened path w)) as (Hfo & _ & _).
    pose proof (dump_run gds_file (file_at (length (file_objects w)))
                  (opened path w)) as Hrun.
    destruct (dump gds_file _ (opened path w)) as [r w1] eqn:Hd.
    exists r, w1. simpl in *. split_and!; try done.
    + by apply closed_file_objects.
    + intros e He. rewrite He in Hrun. by inversion Hrun.
    + intros lib budget Hl Hb Hlt. rewrite Hl in Hrun.
      destruct (print_lines_short (report lib)
                  (file_at (length (file_objects w))) (opened path w) budget)
        as [w2 Hw2]; [apply opened_is_open | done | done |].
      rewrite Hw2 in Hrun. by inversion Hrun.
  - intros log_file.
    destruct (truthy_cases log_file) as [[Hf _]|(p & -> & Hne & _ & _)].
    + rewrite inspect_gds_stdout by done. apply dump_frame.
    + destruct (decide (p ∈ unwritable w)) as [Hin|Hout].
      * by rewrite inspect_gds_unwritable.
      * rewrite inspect_gds_log by done. simpl.
        by destruct (dump_frame gds_file (file_at (length (file_objects w)))
                       (opened p w)) as (_ & -> & _).
Qed.


(** C9: with a log file that can be opened, the loader runs on a disk
    where the log file already exists and is empty; when it raises, the
    run ends with that exception, the log file on disk still empty, its
    file object closed, and nothing else changed. *)
Theorem log_file_opened_before_load gds_file path w e :
  path ≠ EmptyString → path ∉ unwritable w →
  read_gds (<[path := EmptyString]> (files w)) gds_file = Raise e →
  inspect_gds gds_file (Some path) w =
    (Raise e, closed (file_at (length (file_objects w))) (opened path w)) ∧
  files (inspect_gds gds_file (Some path) w).2 !! path = Some EmptyString ∧
  file_objects (inspect_gds gds_file (Some path) w).2 =
    file_objects w ++ [ {| fo_name := path; fo_closed := true |} ] ∧
  stdout (inspect_gds gds_file (Some path) w).2 = stdout w.
Proof.
  intros Hne Hw Hload. rewrite inspect_gds_log by done.
  rewrite dump_run. change (files (opened path w))
    with (<[path := EmptyString]> (files w)). rewrite Hload. simpl.
  split_and!; try done.
  - apply lookup_insert_eq.
  - by rewrite alter_app_r_alt, Nat.sub_diag by lia.
Qed.


End DumpFacts.

(** ** Runs on the small drawing *)

(** The whole report of [top_library], to a log file. *)
Example top_library_report :
  (inspect_gds "top.gds" (Some "log.txt") world0).1 = Ok () ∧
  files (inspect_gds "top.gds" (Some "log.txt") world0).2 !! "log.txt" =
    Some (unlines
      [ "Library: LIB"; "Number of cells: 1"; "Cells: ['TOP']"; EmptyString;
        "Cell: TOP"; "  Polygons: 1"; "  Paths: 0"; "  Labels: 0";
        "  References: 2";
        "    Polygon - Layer 1, datatype 0";
        "      Points: [[ 0.  0.] [10.  0.] [10. 10.] [ 0. 10.]]";
        "    Reference to cell: UNIT"; "      Origin: (5.0, 5.0)";
        "      Rotation: 0.0 degrees"; "      Magnification: 1.0";
        "      X-reflection: False"; "      Array: 3 columns x 2 rows";
        "      Spacing: (20.0, 30.0)";
        "    Reference to cell: Unknown"; "      Origin: (1.0, 2.0)";
        "      Rotation: 1.5 degrees"; "      Magnification: 2.0";
        "      X-reflection: True"; EmptyString ]).
Proof. by vm_compute. Qed.

(** A device that fails after three writes: the run ends in [OSError], the
    log file holds the three lines and its file object is closed. *)
Example device_fails_after_three_writes :
  let w := {| files := files world0; unwritable := ∅; file_objects := [];
              stdout := EmptyString; stdout_closed := false;
              write_budget := Some 3%nat |} in
  (inspect_gds "top.gds" (Some "log.txt") w).1 = Raise OSError ∧
  files (inspect_gds "top.gds" (Some "log.txt") w).2 !! "log.txt" =
    Some (unlines [ "Library: LIB"; "Number of cells: 1"; "Cells: ['TOP']" ]) ∧
  file_objects (inspect_gds "top.gds" (Some "log.txt") w).2 =
    [ {| fo_name := "log.txt"; fo_closed := true |} ].
Proof. by vm_compute. Qed.


(** C7 on a file the loader rejects: the log file object is closed. *)
Lemma log_file_closed_witness :
  "log.txt" ≠ EmptyString ∧ ("log.txt" ∉ unwritable world0) ∧
  file_objects (inspect_gds "nope.gds" (Some "log.txt") world0).2 =
    [ {| fo_name := "log.txt"; fo_closed := true |} ].
Proof.
  assert (H1 : "log.txt" ≠ EmptyString) by discriminate.
  assert (H2 : "log.txt" ∉ unwritable world0) by apply not_elem_of_empty.
  split_and!; [exact H1 | exact H2 |].
  destruct (proj1 (log_file_closed_on_every_exit "nope.gds" "log.txt" world0)
              H1 H2) as (r & w1 & _ & _ & Hfo & _).
  exact Hfo.
Defined.


(** C9 on a file the loader rejects. *)
Lemma log_file_opened_before_load_witness :
  "log.txt" ≠ EmptyString ∧ ("log.txt" ∉ unwritable world0) ∧
  (inspect_gds "nope.gds" (Some "log.txt") world0).1 =
    Raise (LibraryError "not a GDS file") ∧
  files (inspect_gds "nope.gds" (Some "log.txt") world0).2 !! "log.txt" =
    Some EmptyString ∧
  file_objects (inspect_gds "nope.gds" (Some "log.txt") world0).2 =
    [ {| fo_name := "log.txt"; fo_closed := true |} ].
Proof.
  assert (H1 : "log.txt" ≠ EmptyString) by discriminate.
  assert (H2 : "log.txt" ∉ unwritable world0) by apply not_elem_of_empty.
  assert (H3 : read_gds (<["log.txt" := EmptyString]> (files world0))
                 "nope.gds" = Raise (LibraryError "not a GDS file"))
    by (vm_compute; reflexivity).
  destruct (log_file_opened_before_load "nope.gds" "log.txt" world0
              (LibraryError "not a GDS file") H1 H2 H3)
    as (Hrun & Hfile & Hfo & _).
  split_and!; [exact H1 | exact H2 | by rewrite Hrun | exact Hfile | exact Hfo].
Defined.


End ReadGdsFacts.

(* ===================================================================== *)
(** * More about the grid packer *)
(* ===================================================================== *)

Module ShowcaseExtra.

Import Showcase ShowcaseFacts.

Section PackerExtra.

Context {Component : Type} (env : closure_env).
Implicit Types (g : grid Component) (component : Component) (label : string).
Implicit Types (items : list (Component * string)).

Lemma placed_cell g1 g2 component label :
  cell g1 = cell g2 →
  placed env g1 component label = placed env g2 component label.
Proof.
  unfold cell, placed, item_pos. intros [= Hr Hc]. by rewrite Hr, Hc.
Qed.

Lemma place_all_fresh_cell items :
  0 < max_cols env →
  cell (place_all env fresh items) =
    (Z.of_nat (length items) `div` max_cols env,
     Z.of_nat (length items) `mod` max_cols env).
Proof.
  intros Hm.
  assert (Hfresh : cursor_ok env (@fresh Component))
    by (unfold cursor_ok; simpl; lia).
  destruct (place_all_index env items fresh Hfresh) as [Hok Hidx].
  rewrite (cell_of_index env _ Hok), Hidx. unfold cell_index; simpl.
  by rewrite Z.add_0_l.
Qed.

(** The drawing after a run of calls, call by call. *)
Lemma place_all_fresh_c items :
  0 < max_cols env →
  c (place_all env fresh items) =
    mjoin (imap (λ k item,
             placed env {| c := []; row := Z.of_nat k `div` max_cols env;
                           col := Z.of_nat k `mod` max_cols env |}
                    item.1 item.2) items).
Proof.
  intros Hm. induction items as [|[component label] items IH] using rev_ind;
    [done |].
  rewrite place_all_app. simpl. rewrite add_component_to_grid_c, IH.
  rewrite imap_app, join_app. f_equal.
  etrans.
  - apply (placed_cell _
      {| c := []; row := Z.of_nat (length items) `div` max_cols env;
         col := Z.of_nat (length items) `mod` max_cols env |}).
    by rewrite place_all_fresh_cell.
  - unfold placed, item_pos. simpl. by rewrite Nat.add_0_r.
Qed.

(** The item of call [k] and its label, looked up in the final drawing. *)
Lemma place_all_fresh_lookup items (k : nat) component label :
  0 < max_cols env →
  items !! k = Some (component, label) →
  c (place_all env fresh items) !! (2 * k)%nat =
    Some {| ref_of := ComponentOf component;
            ref_origin :=
              (x_start env + (Z.of_nat k `mod` max_cols env) * x_spacing env,
               y_start env - (Z.of_nat k `div` max_cols env) * y_spacing env) |}.
Proof.
  intros Hm Hk.
  assert (Hlt : (k < length items)%nat) by (eapply lookup_lt_Some; eauto).
  rewrite <- (take_drop_middle items k (component, label) Hk).
  rewrite place_all_app. simpl.
  destruct (place_all_c_extends env (drop (S k) items)
              (add_component_to_grid env
                 (place_all env fresh (take k items)) component label))
    as [tail ->].
  rewrite add_component_to_grid_c.
  assert (Hlen : length (c (place_all env fresh (take k items)))
                 = (2 * k)%nat).
  { rewrite place_all_c_length, length_take. simpl. lia. }
  rewrite <- app_assoc, lookup_app_r by lia.
  rewrite Hlen, Nat.sub_diag. simpl. unfold item_pos.
  pose proof (place_all_fresh_cell (take k items) Hm) as Hcell.
  rewrite length_take, Nat.min_l in Hcell by lia.
  unfold cell in Hcell. inversion Hcell as [[Hr Hc]]. by rewrite Hr, Hc.
Qed.

Lemma force_new_row_c g : c (force_new_row g) = c g.
Proof. unfold force_new_row. by case_bool_decide. Qed.

Lemma run_ops_c (ops : list (op Component)) :
  ∀ g, ∃ tail,
    c (run_ops env g ops) = c g ++ tail ∧
    length tail = (2 * length (components_placed ops))%nat ∧
    components_of tail = components_placed ops.
Proof.
  induction ops as [|o ops IH]; intros g; simpl.
  - exists []. by rewrite app_nil_r.
  - destruct (IH (run_op env g o)) as (tail & -> & Hlen & Hcomp).
    destruct o as [component label|]; simpl.
    + exists (placed env g component label ++ tail).
      rewrite add_component_to_grid_c, <- app_assoc.
      split_and!; [done | | ].
      * rewrite length_app, Hlen. simpl. lia.
      * rewrite components_of_app, Hcomp. done.
    + exists tail. by rewrite force_new_row_c.
Qed.

(** The rows a grid of [n] items takes, [ceil (n / max_cols)]. *)
Lemma force_new_row_cell items :
  0 < max_cols env →
  cell (force_new_row (place_all env fresh items)) =
    ((Z.of_nat (length items) + max_cols env - 1) `div` max_cols env, 0).
Proof.
  intros Hm. pose proof (place_all_fresh_cell items Hm) as Hcell.
  unfold cell in *. inversion Hcell as [[Hr Hc]].
  set (n := Z.of_nat (length items)) in *.
  pose proof (Z.div_mod n (max_cols env) ltac:(lia)) as Hdm.
  pose proof (Z.mod_pos_bound n (max_cols env) Hm) as Hb.
  unfold force_new_row. rewrite Hc. case_bool_decide as Hz; simpl; f_equal.
  - rewrite Hr.
    apply Z.div_unique with (r := n `mod` max_cols env - 1); lia.
  - rewrite Hr. apply Z.div_unique with (r := max_cols env - 1); lia.
  - lia.
Qed.

(** X1: after any run of calls onto the empty drawing (with
    [0 < max_cols]) the drawing is, call by call in call order, the
    component at the position of grid cell [(k div max_cols, k mod
    max_cols)] followed by a text reference with that call's label, size 10
    on layer (1,0), 50 to the left and 40 below; it holds nothing else. *)
Theorem drawing_is_items_each_with_its_label items :
  0 < max_cols env →
  c (place_all env fresh items) =
    mjoin (imap (λ k item,
      [ {| ref_of := ComponentOf item.1;
           ref_origin :=
             (x_start env + (Z.of_nat k `mod` max_cols env) * x_spacing env,
              y_start env - (Z.of_nat k `div` max_cols env) * y_spacing env) |};
        {| ref_of := TextOf item.2 10 (1, 0);
           ref_origin :=
             (x_start env + (Z.of_nat k `mod` max_cols env) * x_spacing env
                - 50,
              y_start env - (Z.of_nat k `div` max_cols env) * y_spacing env
                - 40) |} ]) items).
Proof. intros Hm. by rewrite place_all_fresh_c. Qed.

(** X2: with [0 < max_cols] and non-zero spacings, two different calls
    never put their items at the same position. *)
Theorem different_calls_different_positions items (k1 k2 : nat) r1 r2 :
  0 < max_cols env → x_spacing env ≠ 0 → y_spacing env ≠ 0 →
  c (place_all env fresh items) !! (2 * k1)%nat = Some r1 →
  c (place_all env fresh items) !! (2 * k2)%nat = Some r2 →
  k1 ≠ k2 →
  ref_origin r1 ≠ ref_origin r2.
Proof.
  intros Hm Hx Hy H1 H2 Hne.
  assert (Hlen : length (c (place_all env (@fresh Component) items))
                 = (2 * length items)%nat)
    by (rewrite place_all_c_length; simpl; lia).
  assert (Hk1 : (k1 < length items)%nat)
    by (apply lookup_lt_Some in H1; lia).
  assert (Hk2 : (k2 < length items)%nat)
    by (apply lookup_lt_Some in H2; lia).
  destruct (lookup_lt_is_Some_2 items k1 Hk1) as [[c1 l1] Hi1].
  destruct (lookup_lt_is_Some_2 items k2 Hk2) as [[c2 l2] Hi2].
  rewrite (place_all_fresh_lookup items k1 c1 l1 Hm Hi1) in H1.
  rewrite (place_all_fresh_lookup items k2 c2 l2 Hm Hi2) in H2.
  injection H1 as <-. injection H2 as <-. simpl. intros [= Hxe Hye].
  apply Hne, Nat2Z.inj.
  rewrite (Z.div_mod (Z.of_nat k1) (max_cols env)) by lia.
  rewrite (Z.div_mod (Z.of_nat k2) (max_cols env)) by lia.
  assert (Z.of_nat k1 `mod` max_cols env = Z.of_nat k2 `mod` max_cols env)
    as -> by (apply (Z.mul_cancel_r _ _ (x_spacing env)); [done | lia]).
  assert (Z.of_nat k1 `div` max_cols env = Z.of_nat k2 `div` max_cols env)
    as -> by (apply (Z.mul_cancel_r _ _ (y_spacing env)); [done | lia]).
  done.
Qed.

(** X3: with [0 < max_cols], after any run of [n] calls the forced row
    break leaves the cursor at column 0 of row [ceil (n / max_cols)]; the
    spiral and its label are the last two references of the drawing, at
    [x_start] in that row; and with [0 < y_spacing] every grid item lies
    strictly above the spiral. *)
Theorem spiral_lies_below_every_item items spiral :
  0 < max_cols env → 0 < y_spacing env →
  cell (force_new_row (place_all env fresh items)) =
    ((Z.of_nat (length items) + max_cols env - 1) `div` max_cols env, 0) ∧
  drop (2 * length items)
    (c (place_spiral env (force_new_row (place_all env fresh items)) spiral)) =
    [ {| ref_of := ComponentOf spiral;
         ref_origin :=
           (x_start env,
            y_start env -
              ((Z.of_nat (length items) + max_cols env - 1)
                 `div` max_cols env) * y_spacing env) |};
      {| ref_of := TextOf "Spiral" 10 (1, 0);
         ref_origin :=
           (x_start env - 50,
            y_start env -
              ((Z.of_nat (length items) + max_cols env - 1)
                 `div` max_cols env) * y_spacing env - 40) |} ] ∧
  (∀ (k : nat) r,
     (k < length items)%nat →
     c (place_spiral env (force_new_row (place_all env fresh items)) spiral)
       !! (2 * k)%nat = Some r →
     y_start env -
       ((Z.of_nat (length items) + max_cols env - 1) `div` max_cols env)
         * y_spacing env
     < (ref_origin r).2).
Proof.
  intros Hm Hy.
  pose proof (force_new_row_cell items Hm) as Hcell.
  assert (Hlen : length (c (place_all env (@fresh Component) items))
                 = (2 * length items)%nat)
    by (rewrite place_all_c_length; simpl; lia).
  set (rows := (Z.of_nat (length items) + max_cols env - 1)
                 `div` max_cols env) in *.
  rewrite place_spiral_c, force_new_row_c.
  split_and!; [done | |].
  - rewrite <- Hlen, drop_app_length. unfold placed, item_pos.
    unfold cell in Hcell. injection Hcell as Hr Hc.
    by rewrite Hr, Hc, Z.mul_0_l, Z.add_0_r.
  - intros k r Hk Hlook. rewrite lookup_app_l in Hlook by lia.
    destruct (lookup_lt_is_Some_2 items k Hk) as [[ck lk] Hik].
    rewrite (place_all_fresh_lookup items k ck lk Hm Hik) in Hlook.
    injection Hlook as <-. simpl.
    assert (Z.of_nat k `div` max_cols env < rows); [| nia].
    apply Z.div_lt_upper_bound; [done |].
    pose proof (Z.div_mod (Z.of_nat (length items) + max_cols env - 1)
                  (max_cols env) ltac:(lia)) as Hdm.
    pose proof (Z.mod_pos_bound (Z.of_nat (length items) + max_cols env - 1)
                  (max_cols env) Hm) as Hb.
    fold rows in Hdm. lia.
Qed.

(** X4: whatever placements and row breaks run from a grid, and after the
    spiral is placed too, the references already in the drawing are still
    there, unmoved; what was added is two references per placement, and
    its components are those placed, in call order, the spiral last. *)
Theorem placements_only_append g (ops : list (op Component)) spiral :
  ∃ tail,
    c (place_spiral env (run_ops env g ops) spiral) = c g ++ tail ∧
    length tail = (2 * (length (components_placed ops) + 1))%nat ∧
    components_of tail = components_placed ops ++ [spiral].
Proof.
  destruct (run_ops_c ops g) as (tail & Hc & Hlen & Hcomp).
  exists (tail ++ placed env (run_ops env g ops) spiral "Spiral").
  rewrite place_spiral_c, Hc, <- app_assoc. split_and!; [done | |].
  - rewrite length_app, Hlen. simpl. lia.
  - by rewrite components_of_app, Hcomp.
Qed.

End PackerExtra.

(** X1 on the first two calls of the showcase. *)
Lemma drawing_is_items_witness :
  0 < max_cols showcase_env ∧
  c (place_all showcase_env fresh (take 2 grid_calls)) =
    [ {| ref_of := ComponentOf detector; ref_origin := (0, 0) |};
      {| ref_of := TextOf "Ge Photodetector" 10 (1, 0);
         ref_origin := (-50, -40) |};
      {| ref_of := ComponentOf heater_metal; ref_origin := (300, 0) |};
      {| ref_of := TextOf "Metal Heater" 10 (1, 0);
         ref_origin := (250, -40) |} ].
Proof.
  assert (Hm : 0 < max_cols showcase_env) by reflexivity.
  split; [exact Hm |].
  apply (drawing_is_items_each_with_its_label showcase_env
           (take 2 grid_calls) Hm).
Defined.

(** X2 on the showcase: the fifth item is not where the first is. *)
Lemma different_positions_witness :
  0 < max_cols showcase_env ∧
  x_spacing showcase_env ≠ 0 ∧ y_spacing showcase_env ≠ 0 ∧
  c (place_all showcase_env fresh grid_calls) !! (2 * 0)%nat =
    Some {| ref_of := ComponentOf detector; ref_origin := (0, 0) |} ∧
  c (place_all showcase_env fresh grid_calls) !! (2 * 4)%nat =
    Some {| ref_of := ComponentOf disk_heater; ref_origin := (0, -100) |} ∧
  0%nat ≠ 4%nat ∧
  ref_origin {| ref_of := ComponentOf detector; ref_origin := (0, 0) |} ≠
  ref_origin {| ref_of := ComponentOf disk_heater; ref_origin := (0, -100) |}.
Proof.
  assert (Hm : 0 < max_cols showcase_env) by reflexivity.
  assert (Hx : x_spacing showcase_env ≠ 0) by discriminate.
  assert (Hy : y_spacing showcase_env ≠ 0) by discriminate.
  assert (Hk : 0%nat ≠ 4%nat) by discriminate.
  split_and!; [exact Hm | exact Hx | exact Hy | reflexivity | reflexivity
              | exact Hk |].
  exact (different_calls_different_positions showcase_env grid_calls 0 4
           {| ref_of := ComponentOf detector; ref_origin := (0, 0) |}
           {| ref_of := ComponentOf disk_heater; ref_origin := (0, -100) |}
           Hm Hx Hy eq_refl eq_refl Hk).
Defined.

(** X3 on the showcase: thirty items in four columns take eight rows, and
    the spiral goes to [(0, -800)]. *)
Lemma spiral_below_witness :
  0 < max_cols showcase_env ∧ 0 < y_spacing showcase_env ∧
  cell (force_new_row (place_all showcase_env fresh grid_calls)) = (8, 0) ∧
  drop 60 pic_component_showcase =
    [ {| ref_of := ComponentOf spiral; ref_origin := (0, -800) |};
      {| ref_of := TextOf "Spiral" 10 (1, 0); ref_origin := (-50, -840) |} ].
Proof.
  assert (Hm : 0 < max_cols showcase_env) by reflexivity.
  assert (Hy : 0 < y_spacing showcase_env) by reflexivity.
  destruct (spiral_lies_below_every_item showcase_env grid_calls spiral Hm Hy)
    as (Hcell & Hdrop & _).
  split_and!; [exact Hm | exact Hy | exact Hcell | exact Hdrop].
Defined.

End ShowcaseExtra.

(* ===================================================================== *)
(** * More about the structure dump *)
(* ===================================================================== *)

Module ReadGdsExtra.

Import ReadGds ReadGdsFacts.

Section PrintingExtra.

Implicit Types (w : world) (output : stream) (lines : list string).

(** One [print] either raises and changes nothing, or writes its line. *)
Lemma print_cases line output w :
  (∃ e, print line output w = (Raise e, w)) ∨
  print line output w =
    (Ok (), spend 1 (written (line +:+ newline) output w)).
Proof.
  unfold print. destruct (negb (is_open output w)); [left; eauto |].
  case_bool_decide; [left; eauto | by right].
Qed.

Lemma file_objects_spend_written n text output w :
  file_objects (spend n (written text output w)) = file_objects w.
Proof.
  destruct output as [|h]; simpl; [done |].
  by destruct (file_objects w !! h).
Qed.

Lemma written_files_other n text output w q :
  (∀ h f, output = file_at h → file_objects w !! h = Some f →
          fo_name f ≠ q) →
  files (spend n (written text output w)) !! q = files w !! q.
Proof.
  intros Hq. destruct output as [|h]; simpl; [done |].
  destruct (file_objects w !! h) as [f|] eqn:Hf; simpl; [| done].
  apply lookup_alter_ne. by eapply Hq.
Qed.

Lemma print_lines_files_other lines output q :
  ∀ w, (∀ h f, output = file_at h → file_objects w !! h = Some f →
               fo_name f ≠ q) →
       files (print_lines lines output w).2 !! q = files w !! q.
Proof.
  induction lines as [|line lines IH]; intros w Hq; [done |].
  rewrite print_lines_cons.
  destruct (print_cases line output w) as [[e ->] | ->]; [done |].
  rewrite IH.
  - by apply written_files_other.
  - intros h f -> Hf. apply (Hq h f eq_refl).
    by rewrite file_objects_spend_written in Hf.
Qed.

Lemma print_lines_files_stdout lines :
  ∀ w, files (print_lines lines sys_stdout w).2 = files w.
Proof.
  induction lines as [|line lines IH]; intros w; [done |].
  rewrite print_lines_cons.
  destruct (print_cases line sys_stdout w) as [[e ->] | ->]; [done |].
  by rewrite IH.
Qed.

Lemma print_lines_stdout_other lines handle :
  ∀ w, stdout (print_lines lines (file_at handle) w).2 = stdout w.
Proof.
  induction lines as [|line lines IH]; intros w; [done |].
  rewrite print_lines_cons.
  destruct (print_cases line (file_at handle) w) as [[e ->] | ->]; [done |].
  rewrite IH. simpl. by destruct (file_objects w !! handle).
Qed.

Lemma print_lines_stdout_grows lines :
  ∀ w, ∃ suffix,
    stdout (print_lines lines sys_stdout w).2 = stdout w +:+ suffix.
Proof.
  induction lines as [|line lines IH]; intros w.
  - exists EmptyString. simpl. by rewrite string_app_nil_r.
  - rewrite print_lines_cons.
    destruct (print_cases line sys_stdout w) as [[e ->] | ->].
    + exists EmptyString. simpl. by rewrite string_app_nil_r.
    + destruct (IH (spend 1 (written (line +:+ newline) sys_stdout w)))
        as [suffix ->].
      exists ((line +:+ newline) +:+ suffix). simpl.
      by rewrite string_app_assoc.
Qed.


End PrintingExtra.

Section DumpExtra.

Context {pyval : Type} {ext : Externals pyval}.
Implicit Types (w : world) (output : stream) (lines : list string).


(** X5: when the log file cannot be opened, the run ends in [OSError]
    before anything else happens: the loader is not called, nothing is
    printed, no file or file object is created; the world is as it was. *)
Theorem unwritable_log_stops_the_run gds_file path w :
  path ≠ EmptyString → path ∈ unwritable w →
  inspect_gds gds_file (Some path) w = (Raise OSError, w).
Proof. apply inspect_gds_unwritable. Qed.

(** X6: the empty string as log path is no log file: the run is the run
    without a log file, outcome and world alike. *)
Theorem empty_log_path_goes_to_stdout gds_file w :
  inspect_gds gds_file (Some EmptyString) w = inspect_gds gds_file None w.
Proof. by rewrite !inspect_gds_stdout. Qed.

(** X7: what the log file held before the run has no influence on it: the
    outcome and the final world are the same whatever text was there, also
    when the log path is the GDS input itself, whose content the loader
    then never sees. *)
Theorem previous_log_content_is_never_seen gds_file path content w :
  path ≠ EmptyString → path ∉ unwritable w →
  inspect_gds gds_file (Some path)
    (with_files (<[path := content]> (files w)) w) =
  inspect_gds gds_file (Some path) w.
Proof.
  intros Hne Hw. rewrite !inspect_gds_log by done.
  assert (Ho : opened path (with_files (<[path := content]> (files w)) w)
               = opened path w).
  { unfold opened, with_files, with_file_objects; simpl.
    by rewrite insert_insert_eq. }
  simpl. by rewrite Ho.
Qed.

(** X8: a run with a log file leaves standard output and every other file
    on disk as they were, whatever its outcome. *)
Theorem log_run_touches_only_the_log gds_file path w :
  path ≠ EmptyString →
  stdout (inspect_gds gds_file (Some path) w).2 = stdout w ∧
  (∀ q, q ≠ path →
     files (inspect_gds gds_file (Some path) w).2 !! q = files w !! q).
Proof.
  intros Hne. destruct (decide (path ∈ unwritable w)) as [Hin|Hout].
  { by rewrite inspect_gds_unwritable. }
  rewrite inspect_gds_log by done. rewrite dump_run.
  destruct (read_gds (files (opened path w)) gds_file) as [lib|e]; simpl.
  - split.
    + by rewrite print_lines_stdout_other.
    + intros q Hq. rewrite print_lines_files_other.
      * simpl. by rewrite lookup_insert_ne.
      * intros h f [= <-]. simpl.
        rewrite lookup_app_r, Nat.sub_diag by lia. by intros [= <-].
  - split; [done |]. intros q Hq. by rewrite lookup_insert_ne.
Qed.

(** X9: a run without a log file creates no file object and leaves the
    disk as it was; standard output keeps the text it had and only gains
    text after it, whatever the outcome. *)
Theorem stdout_run_only_appends gds_file log_file w :
  truthy log_file = false →
  files (inspect_gds gds_file log_file w).2 = files w ∧
  file_objects (inspect_gds gds_file log_file w).2 = file_objects w ∧
  ∃ suffix,
    stdout (inspect_gds gds_file log_file w).2 = stdout w +:+ suffix.
Proof.
  intros Hf. rewrite inspect_gds_stdout by done.
  split_and!; [| apply dump_frame |]; rewrite dump_run;
    destruct (read_gds (files w) gds_file) as [lib|e]; simpl; try done.
  - apply print_lines_files_stdout.
  - apply print_lines_stdout_grows.
  - exists EmptyString. by rewrite string_app_nil_r.
Qed.


(** X11: whatever its arguments and its outcome, a run leaves the file
    objects that existed as they were and adds at most one, and the one it
    adds is closed. *)
Theorem run_leaves_no_file_open gds_file log_file w :
  ∃ new,
    file_objects (inspect_gds gds_file log_file w).2 =
      file_objects w ++ new ∧
    Forall (λ f, fo_closed f = true) new ∧
    (length new ≤ 1)%nat.
Proof.
  destruct (truthy_cases log_file) as [[Hf _]|(path & -> & Hne & _ & _)].
  - exists []. rewrite inspect_gds_stdout by done.
    destruct (dump_frame gds_file sys_stdout w) as (-> & _ & _).
    rewrite app_nil_r. split_and!; [done | constructor | simpl; lia].
  - destruct (decide (path ∈ unwritable w)) as [Hin|Hout].
    + exists []. rewrite inspect_gds_unwritable by done.
      rewrite app_nil_r. split_and!; [done | constructor | simpl; lia].
    + exists [ {| fo_name := path; fo_closed := true |} ].
      rewrite inspect_gds_log by done. split_and!.
      * apply closed_file_objects, dump_frame.
      * by repeat constructor.
      * simpl; lia.
Qed.


(** X13: a drawing without cells gives a report of four lines: the
    library name, a count of 0, the empty list of names and an empty
    line. *)
Theorem empty_drawing_report gds_file log_file w (name : string) :
  ready log_file 4 w →
  read_gds (files_at_load log_file w) gds_file =
    Ok {| library_name := name; library_cells := [] |} →
  (inspect_gds gds_file log_file w).1 = Ok () ∧
  wrote log_file w (inspect_gds gds_file log_file w).2
    (unlines [ "Library: " +:+ name; "Number of cells: 0"; "Cells: []";
               EmptyString ]).
Proof.
  intros Hready Hload.
  assert (Hrep : report {| library_name := name; library_cells := [] |}
                 = [ "Library: " +:+ name; "Number of cells: 0"; "Cells: []";
                     EmptyString ]) by (vm_compute; reflexivity).
  assert (Hready' : ready log_file
            (length (report {| library_name := name; library_cells := [] |}))
            w) by (by rewrite Hrep).
  pose proof (inspect_gds_report gds_file log_file w _ Hready' Hload) as H.
  by rewrite Hrep in H.
Qed.

(** X14: when the drawing cannot be loaded and the report would go to
    standard output, the loader's exception is the outcome and nothing is
    printed, not even a header: the world is as it was. *)
Theorem load_failure_prints_nothing gds_file log_file w e :
  truthy log_file = false →
  read_gds (files w) gds_file = Raise e →
  inspect_gds gds_file log_file w = (Raise e, w).
Proof.
  intros Hf Hload. rewrite inspect_gds_stdout by done.
  by rewrite dump_run, Hload.
Qed.












End DumpExtra.

(** X5 on a log path that cannot be opened. *)
Lemma unwritable_log_witness :
  "ro.log" ≠ EmptyString ∧ ("ro.log" ∈ unwritable world_read_only) ∧
  inspect_gds "top.gds" (Some "ro.log") world_read_only =
    (Raise OSError, world_read_only).
Proof.
  assert (H1 : "ro.log" ≠ EmptyString) by discriminate.
  assert (H2 : "ro.log" ∈ unwritable world_read_only)
    by (simpl; apply elem_of_singleton; reflexivity).
  split_and!; [exact H1 | exact H2 |].
  exact (unwritable_log_stops_the_run "top.gds" "ro.log" world_read_only
           H1 H2).
Defined.

(** X7 with the GDS input as the log file: the run is the run on a disk
    where that file is not there at all. *)
Lemma previous_log_content_witness :
  "top.gds" ≠ EmptyString ∧ ("top.gds" ∉ unwritable world0) ∧
  inspect_gds "top.gds" (Some "top.gds")
    (with_files (<["top.gds" := "gds:top"]> ∅) (with_files ∅ world0)) =
  inspect_gds "top.gds" (Some "top.gds") (with_files ∅ world0).
Proof.
  assert (H1 : "top.gds" ≠ EmptyString) by discriminate.
  assert (H2 : "top.gds" ∉ unwritable (with_files ∅ world0))
    by apply not_elem_of_empty.
  split_and!; [exact H1 | exact H2 |].
  exact (previous_log_content_is_never_seen "top.gds" "top.gds" "gds:top"
           (with_files ∅ world0) H1 H2).
Defined.

(** X8 on a run to [log.txt]: the GDS file and standard output are as they
    were. *)
Lemma log_run_witness :
  "log.txt" ≠ EmptyString ∧
  stdout (inspect_gds "top.gds" (Some "log.txt") world_read_only).2 =
    "earlier output" ∧
  files (inspect_gds "top.gds" (Some "log.txt") world_read_only).2
    !! "top.gds" = Some "gds:top".
Proof.
  assert (H1 : "log.txt" ≠ EmptyString) by discriminate.
  destruct (log_run_touches_only_the_log "top.gds" "log.txt" world_read_only
              H1) as [Hout Hfiles].
  split_and!; [exact H1 | exact Hout |].
  rewrite (Hfiles "top.gds") by discriminate.
  vm_compute. reflexivity.
Defined.

(** X9 on a run to standard output after earlier output. *)
Lemma stdout_run_witness :
  truthy None = false ∧
  file_objects (inspect_gds "top.gds" None world_read_only).2 = [] ∧
  ∃ suffix, stdout (inspect_gds "top.gds" None world_read_only).2 =
              "earlier output" +:+ suffix.
Proof.
  destruct (stdout_run_only_appends "top.gds" None world_read_only eq_refl)
    as (_ & Hfo & Hout).
  split_and!; [reflexivity | exact Hfo | exact Hout].
Defined.



(** X13 on a loader that finds a drawing without cells. *)
Lemma empty_drawing_witness :
  ready None 4 world0 ∧
  (@inspect_gds string
     {| str := λ v, v; repr := λ s, s;
        read_gds := λ _ _, Ok {| library_name := "EMPTY";
                                 library_cells := [] |} |}
     "any.gds" None world0).1 = Ok () ∧
  stdout (@inspect_gds string
     {| str := λ v, v; repr := λ s, s;
        read_gds := λ _ _, Ok {| library_name := "EMPTY";
                                 library_cells := [] |} |}
     "any.gds" None world0).2 =
    unlines [ "Library: EMPTY"; "Number of cells: 0"; "Cells: []";
              EmptyString ].
Proof.
  assert (H1 : ready None 4 world0) by (split; [exact I | reflexivity]).
  destruct (@empty_drawing_report string
              {| str := λ v, v; repr := λ s, s;
                 read_gds := λ _ _, Ok {| library_name := "EMPTY";
                                          library_cells := [] |} |}
              "any.gds" None world0 "EMPTY" H1 eq_refl) as [Hok Hwrote].
  split_and!; [exact H1 | exact Hok | exact Hwrote].
Defined.

(** X14 on a file the loader rejects. *)
Lemma load_failure_witness :
  truthy None = false ∧
  inspect_gds "nope.gds" None world_read_only =
    (Raise (LibraryError "not a GDS file"), world_read_only).
Proof.
  assert (H : read_gds (files world_read_only) "nope.gds"
              = Raise (LibraryError "not a GDS file"))
    by (vm_compute; reflexivity).
  split; [reflexivity |].
  exact (load_failure_prints_nothing "nope.gds" None world_read_only
           (LibraryError "not a GDS file") eq_refl H).
Defined.



End ReadGdsExtra.
